(** * latexbuild: the convergence build driver of [latexbuild/build.py]

    A shallow embedding of [LatexBuild.run_latex] and of the three wrappers
    [build_pdf], [build_html] and [build_docx], with the properties of the
    written specification stated over it.

    The driver is effectful Python: it writes and deletes files, launches
    processes, logs, draws random names, raises and catches exceptions and
    loops until the auxiliary file stops changing.  The embedding threads an
    explicit [World] through a small error monad; the [while] loop takes a
    pass budget and answers [Running] when the budget is used up, so that
    "the loop is still running" is a result one can state and compute.

    The file system is a finite map from locations to the contents of
    the regular files, beside the set of the directories that exist.  A
    location is a path in normal form: every operation on a path first
    resolves it, so that [tpl//doc.tex] and [tpl/./doc.tex] name the file
    at [tpl/doc.tex]; [..] is resolved on the text of the path.  The
    directories are given: no process creates, removes or moves one.
    Symbolic links, permissions and I/O faults are outside the model. *)

From Stdlib Require Import ZArith Ascii.
From stdpp Require Import gmap strings list fin_maps.

Local Open Scope string_scope.
Local Open Scope list_scope.

(** ** Python's [posixpath] on strings *)

Module posixpath.

(** [p.rfind(c)]: index of the last occurrence of [c], or [-1]. *)
Fixpoint rfind_from (i : Z) (c : ascii) (p : string) : Z :=
  match p with
  | EmptyString => (-1)%Z
  | String a p' =>
      let r := rfind_from (i + 1) c p' in
      if (0 <=? r)%Z then r else if Ascii.eqb a c then i else (-1)%Z
  end.

Definition rfind (c : ascii) (p : string) : Z := rfind_from 0 c p.

(** [p[:i]] and [p[i:]] for [0 <= i]. *)
Definition upto (i : Z) (p : string) : string := String.substring 0 (Z.to_nat i) p.
Definition from (i : Z) (p : string) : string :=
  String.substring (Z.to_nat i) (String.length p - Z.to_nat i) p.

Fixpoint all_chars (c : ascii) (p : string) : bool :=
  match p with
  | EmptyString => true
  | String a p' => Ascii.eqb a c && all_chars c p'
  end.

(** [p.rstrip(c)] *)
Fixpoint rstrip (c : ascii) (p : string) : string :=
  match p with
  | EmptyString => EmptyString
  | String a p' =>
      match rstrip c p' with
      | EmptyString => if Ascii.eqb a c then EmptyString else String a EmptyString
      | q => String a q
      end
  end.

(** [os.path.splitext]: the extension starts at the last dot of the last
    path component, unless that component has only leading dots before
    it. *)
Definition splitext (p : string) : string * string :=
  let sepIndex := rfind "/" p in
  let dotIndex := rfind "." p in
  if (sepIndex <? dotIndex)%Z then
    let filenameIndex := (sepIndex + 1)%Z in
    if all_chars "." (String.substring (Z.to_nat filenameIndex)
                                (Z.to_nat (dotIndex - filenameIndex)) p)
    then (p, "")
    else (upto dotIndex p, from dotIndex p)
  else (p, "").

(** [os.path.dirname] *)
Definition dirname (p : string) : string :=
  let i := (rfind "/" p + 1)%Z in
  let head := upto i p in
  if negb (String.eqb head "") && negb (all_chars "/" head)
  then rstrip "/" head else head.

Definition startswith (pre p : string) : bool := String.prefix pre p.

Definition endswith (c : ascii) (p : string) : bool :=
  match String.get (String.length p - 1) p with
  | Some a => Ascii.eqb a c && negb (String.eqb p "")
  | None => false
  end.

(** [os.path.join(a, b)] *)
Definition join (a b : string) : string :=
  if startswith "/" b then b
  else if String.eqb a "" || endswith "/" a then a +:+ b
  else a +:+ "/" +:+ b.

(** [os.path.basename] *)
Definition basename (p : string) : string := from (rfind "/" p + 1) p.

(** [p.split("/")] *)
Fixpoint components (p : string) : list string :=
  match p with
  | EmptyString => [EmptyString]
  | String a p' =>
      if Ascii.eqb a "/" then EmptyString :: components p'
      else match components p' with
           | c :: cs => String a c :: cs
           | [] => [String a EmptyString]
           end
  end.

(** One step of path resolution: [st] holds the components walked so
    far, the last one first.  Above the root there is the root. *)
Definition walk (absolute : bool) (st : list string) (c : string) : list string :=
  if String.eqb c "" || String.eqb c "." then st
  else if String.eqb c ".." then
    match st with
    | [] => if absolute then [] else [c]
    | x :: st' => if String.eqb x ".." then c :: st else st'
    end
  else c :: st.

(** The normal form of a path: no empty component, no [.], no [..]
    behind a name, one leading slash for an absolute path, [.] for the
    working directory. *)
Definition canon (p : string) : string :=
  let absolute := startswith "/" p in
  let body := String.concat "/" (rev (fold_left (walk absolute) (components p) [])) in
  if absolute then "/" +:+ body
  else if String.eqb body "" then "." else body.

End posixpath.

(** ** Exceptions, log records and the world *)

(** The exceptions the driver and its collaborators raise.  The last two
    derive from [BaseException] only, so [except Exception] lets them
    through. *)
Inductive exn : Type :=
| IndexError
| ValueError
| FileNotFoundError
| OSError
| CalledProcessError (returncode : Z)
| TemplateError
| KeyboardInterrupt
| SystemExit.

Definition is_Exception (e : exn) : bool :=
  match e with
  | KeyboardInterrupt | SystemExit => false
  | _ => true
  end.

Global Instance exn_eq_dec : EqDecision exn.
Proof. solve_decision. Defined.

Inductive level : Type := DEBUG | INFO | ERROR.

(** One record of the module's [LOGGER]; [exc_info] is the exception that
    [LOGGER.exception] attaches. *)
Record LogRecord : Type := mkLog {
  lvl : level;
  msg : string;
  exc_info : option exn
}.

(** The values held by [old_aux] and [new_aux]: a text, or whatever
    [read_file] answers for a file that is not there when it does not
    raise. *)
Inductive aux_content : Type :=
| Text (s : string)
| Absent.

Global Instance aux_content_eq_dec : EqDecision aux_content.
Proof. solve_decision. Defined.

(** [files]: the regular files, by location; [procs]: every call of the
    subprocess primitive so far, oldest first, as (command, working
    directory); [log]: the records emitted so far; [entropy]: the state
    of the random source; [outside]: the state of the toolchain that the
    driver cannot see; [dirs]: the directories that exist, by location,
    beside the root and the working directory.  Nothing in the driver
    creates or removes a directory. *)
Record World : Type := mkWorld {
  files : gmap string string;
  procs : list (list string * string);
  log : list LogRecord;
  entropy : nat;
  outside : nat;
  dirs : gset string
}.

Definition set_files (f : gmap string string) (w : World) : World :=
  mkWorld f (procs w) (log w) (entropy w) (outside w) (dirs w).

(** ** The monad of the driver *)

(** A computation ends by returning, by raising, or is still [Running]
    when the pass budget of the loop is used up. *)
Inductive Outcome (A : Type) : Type :=
| Returned (a : A) (w : World)
| Raised (e : exn) (w : World)
| Running (w : World).
Arguments Returned {A} a w.
Arguments Raised {A} e w.
Arguments Running {A} w.

Definition M (A : Type) : Type := World → Outcome A.

Definition ret {A} (a : A) : M A := fun w => Returned a w.
Definition raise {A} (e : exn) : M A := fun w => Raised e w.
Definition bind {A B} (m : M A) (k : A → M B) : M B :=
  fun w =>
    match m w with
    | Returned a w' => k a w'
    | Raised e w' => Raised e w'
    | Running w' => Running w'
    end.

Notation "'let*' x ':=' m 'in' k" := (bind m (fun x => k))
  (at level 10, x pattern, m at level 100, k at level 200).
Notation "m ';;' k" := (bind m (fun _ => k))
  (at level 100, k at level 200, right associativity).

Definition world_of {A} (o : Outcome A) : World :=
  match o with
  | Returned _ w | Raised _ w | Running w => w
  end.

(** [try: body except Exception: handler] *)
Definition try_except {A} (body : M A) (handler : exn → M A) : M A :=
  fun w =>
    match body w with
    | Raised e w' => if is_Exception e then handler e w' else Raised e w'
    | o => o
    end.

(** [try: body finally: final].  The [finally] suite runs on return and on
    raise; an exception of its own replaces the pending one. *)
Definition try_finally {A} (body : M A) (final : M unit) : M A :=
  fun w =>
    match body w with
    | Returned a w' => (final ;; ret a) w'
    | Raised e w' => (final ;; raise e) w'
    | Running w' => Running w'
    end.

(** ** Primitives of the standard library *)

Definition emit (r : LogRecord) : M unit :=
  fun w => Returned tt (mkWorld (files w) (procs w) (log w ++ [r]) (entropy w)
                                (outside w) (dirs w)).

Definition LOGGER_debug (m : string) : M unit := emit (mkLog DEBUG m None).
Definition LOGGER_info (m : string) : M unit := emit (mkLog INFO m None).
(** Called from an [except] suite for the exception [e] being handled. *)
Definition LOGGER_exception (m : string) (e : exn) : M unit := emit (mkLog ERROR m (Some e)).

(** The location that a path names; the empty path names none. *)
Definition locate (path : string) : option string :=
  if String.eqb path "" then None else Some (posixpath.canon path).

(** The directory that holds a location. *)
Definition parent (k : string) : string :=
  let d := posixpath.dirname k in if String.eqb d "" then "." else d.

(** There is a directory at the location; the root and the working
    directory are always there. *)
Definition is_directory (w : World) (k : string) : bool :=
  bool_decide (k ∈ dirs w) || String.eqb k "/" || String.eqb k ".".

(** [os.path.isdir(path)] *)
Definition os_path_isdir (w : World) (path : string) : bool :=
  match locate path with
  | Some k => is_directory w k
  | None => false
  end.

(** [os.path.isfile(path)] *)
Definition os_path_isfile (w : World) (path : string) : bool :=
  match locate path with
  | Some k => bool_decide (is_Some (files w !! k))
  | None => false
  end.

(** [os.path.exists(path)] *)
Definition os_path_exists (w : World) (path : string) : bool :=
  os_path_isdir w path || os_path_isfile w path.

(** [with open(path, "w") as f: f.write(text)].  The driver writes one
    file, the temporary source, into the directory of the template,
    which [__init__] asserts to exist (lines 63-64); the write is taken
    to succeed. *)
Definition write_file (path text : string) : M unit :=
  fun w => Returned tt (set_files (<[posixpath.canon path := text]> (files w)) w).

(** Where [shutil.move(src, dst)] puts the file: into [dst] under the
    name of [src] when [dst] is a directory, at [dst] otherwise. *)
Definition real_dst (w : World) (src dst : string) : string :=
  if os_path_isdir w dst
  then posixpath.join dst (posixpath.basename (posixpath.rstrip "/" src))
  else dst.

(** A regular file is on the way to the location. *)
Definition under_a_file (w : World) (k : string) : bool :=
  existsb (fun f => posixpath.startswith (f +:+ "/") k) (map_to_list (files w)).*1.

(** [shutil.move(src, dst)] where [src] is a regular file or missing;
    the driver moves the output file of the compiler.  A name that is
    taken inside the directory [dst] raises [shutil.Error].  Otherwise
    the file is renamed, over a file that is at the destination.  When
    [os.rename] fails, [shutil.move] copies, and it is the copy that
    raises: [FileNotFoundError] for a missing source or a missing
    directory of the destination, [NotADirectoryError] for a regular
    file on the way to it, [IsADirectoryError] for a destination that
    ends with a slash.  All of them but the first derive from [OSError],
    which stands for them here. *)
Definition shutil_move (src dst : string) : M unit :=
  fun w =>
    let dest := real_dst w src dst in
    if os_path_isdir w dst && os_path_exists w dest then Raised OSError w
    else
      match locate src with
      | Some k =>
          match files w !! k with
          | Some c =>
              if String.eqb dest "" then Raised FileNotFoundError w
              else if is_directory w (parent (posixpath.canon dest))
              then if posixpath.endswith "/" dest then Raised OSError w
                   else Returned tt
                          (set_files (<[posixpath.canon dest := c]> (delete k (files w)))
                                     w)
              else if under_a_file w (posixpath.canon dest) then Raised OSError w
              else Raised FileNotFoundError w
          | None => Raised FileNotFoundError w
          end
      | None => Raised FileNotFoundError w
      end.

(** [os.remove(path)]; a directory is not removed. *)
Definition os_remove (path : string) : M unit :=
  fun w =>
    match locate path with
    | Some k =>
        match files w !! k with
        | Some _ => Returned tt (set_files (delete k (files w)) w)
        | None => if is_directory w k then Raised OSError w
                  else Raised FileNotFoundError w
        end
    | None => Raised FileNotFoundError w
    end.

(** [for x in xs: f(x)] *)
Fixpoint for_each {A} (xs : list A) (f : A → M unit) : M unit :=
  match xs with
  | [] => ret tt
  | x :: xs' => f x ;; for_each xs' f
  end.

(** [xs[0]] *)
Definition getitem0 {A} (xs : list A) : M A :=
  match xs with
  | [] => raise IndexError
  | x :: _ => ret x
  end.

Definition newline : string := String (ascii_of_nat 10) EmptyString.

(** [sep.join(lines)] *)
Definition str_join (sep : string) (lines : list string) : string :=
  String.concat sep lines.

(** ** The collaborators of [build.py]

    The modules [jinja2_extension], [subprocess_extension], [utils] and
    [assertions] are imported by [build.py]; the driver is verified for
    every behaviour they can have within the contract of section 6 of the
    specification. *)
Class Collaborators : Type := {
  (** the renderer: root, relative path, parameters, filters; it may read
      the template tree *)
  render : string → string → option (gmap string string) →
           option (gmap string (string → string)) →
           gmap string string → exn + string;
  (** the random source: requested length and state of the source *)
  uuid_chars : nat → nat → string;
  uuid_chars_length : ∀ n seed, String.length (uuid_chars n seed) = n;
  (** a randomized file name derived from a path *)
  fresh_name : string → nat → string;
  (** the content of a file, or the failure to read it *)
  file_text : string → gmap string string → exn + aux_content;
  (** the external process: command, working directory, file system and
      hidden state before; output lines or failure, file system and hidden
      state after *)
  subprocess : list string → string → gmap string string → nat →
               (exn + list string) * gmap string string * nat
}.

Section Driver.

Context {C : Collaborators}.

(** *** Imported helpers *)

(** Modelled from the spec: [jinja2_extension.render_latex_template] is
    not part of [build.py]; section 4.1 makes it a function of the
    template identity and the parameters that has no side effect and
    fails with a template error. *)
Definition render_latex_template
    (path_jinja2 template_name : string)
    (template_kwargs : option (gmap string string))
    (filters : option (gmap string (string → string))) : M string :=
  fun w =>
    match render path_jinja2 template_name template_kwargs filters (files w) with
    | inl e => Raised e w
    | inr text => Returned text w
    end.

(** Modelled from the spec: [utils.random_str_uuid] is not part of
    [build.py]; section 6 asks for "a random string of a requested
    length". *)
Definition random_str_uuid (string_length : nat) : M aux_content :=
  fun w =>
    Returned (Text (uuid_chars string_length (entropy w)))
             (mkWorld (files w) (procs w) (log w) (S (entropy w)) (outside w) (dirs w)).

(** Modelled from the spec: [utils.random_name_filepath] is not part of
    [build.py]; section 6 asks for "a randomized filename derived from a
    given path".  No file is created. *)
Definition random_name_filepath (path_full : string) : M string :=
  fun w =>
    Returned (fresh_name path_full (entropy w))
             (mkWorld (files w) (procs w) (log w) (S (entropy w)) (outside w) (dirs w)).

(** Modelled from the spec: [utils.read_file] is not part of [build.py];
    section 6 asks it to "read a file's full content as text" and leaves
    open what happens when the file is absent, so both a raise and a
    distinct value are allowed. *)
Definition read_file (filepath : string) : M aux_content :=
  fun w =>
    match file_text filepath (files w) with
    | inl e => Raised e w
    | inr c => Returned c w
    end.

(** Modelled from the spec: [utils.list_filepathes_with_predicate] is not
    part of [build.py]; section 6 asks it to "list files in a directory
    whose name matches a given prefix".  A listing names the entries of
    the directory; the path of an entry is the path of the directory
    joined with its name, and it is this path that is matched against
    the prefix: the driver passes the full path of the temporary source
    without its extension.  The spec gives the helper no failure; the
    empty path lists nothing.

    [is_run_file path_dir predicate k]: the location [k] is the entry
    named [basename k] of [path_dir], and the path of that entry starts
    with [predicate]. *)
Definition proper_name (n : string) : bool :=
  negb (String.eqb n "") && negb (String.eqb n ".") && negb (String.eqb n "..").

Definition is_run_file (path_dir predicate k : string) : bool :=
  let path := posixpath.join path_dir (posixpath.basename k) in
  negb (String.eqb path_dir "")
  && proper_name (posixpath.basename k)
  && bool_decide (locate path = Some k)
  && posixpath.startswith predicate path.

Definition list_filepathes_with_predicate (path_dir predicate : string)
    : M (list string) :=
  fun w =>
    Returned (map (fun k => posixpath.join path_dir (posixpath.basename k))
                  (filter (fun k => is_run_file path_dir predicate k = true)
                          (map_to_list (files w)).*1)) w.

(** Modelled from the spec: [subprocess_extension.check_output_cwd] is
    not part of [build.py]; section 6 asks it to run the command
    synchronously in the working directory and to return the output
    lines or fail.  Every call is recorded in [procs], also one that
    fails to launch. *)
Definition check_output_cwd (cmd : list string) (cwd : string) : M (list string) :=
  fun w =>
    let '(r, f, h) := subprocess cmd cwd (files w) (outside w) in
    let w' := mkWorld f (procs w ++ [(cmd, cwd)]) (log w) (entropy w) h (dirs w) in
    match r with
    | inl e => Raised e w'
    | inr stdout => Returned stdout w'
    end.

(** Modelled from the spec: [assertions.has_file_extension] is not part
    of [build.py]; section 4.2 has each wrapper validate "the requested
    output path's extension against its family" and fail on a mismatch;
    the docstring of [build_pdf] names the exception, [ValueError]. *)
Definition has_file_extension (filepath ext_required : string) : M bool :=
  if decide ((posixpath.splitext filepath).2 = ext_required)
  then ret true
  else raise ValueError.

(** *** class LatexBuild *)

Record LatexBuild : Type := mkLatexBuild {
  path_jinja2 : string;
  template_name : string;
  template_kwargs : option (gmap string string);
  path_template : string;
  filters : option (gmap string (string → string));
  cmd_latex : string
}.

(** The attributes set by [__init__]; its assertions on the template
    tree are about construction, which no property below concerns. *)
Definition LatexBuild_init (path_jinja2 template_name : string)
    (template_kwargs : option (gmap string string))
    (filters : option (gmap string (string → string)))
    (cmd_latex : string) : LatexBuild :=
  mkLatexBuild path_jinja2 template_name template_kwargs
               (posixpath.join path_jinja2 template_name) filters cmd_latex.

Definition get_text_template (self : LatexBuild) : M string :=
  render_latex_template (path_jinja2 self) (template_name self)
                        (template_kwargs self) (filters self).

(** *** run_latex *)

(** The names computed at lines 92-100 from the random source path and
    the requested output path. *)
Record Paths : Type := mkPaths {
  path_template_random : string;
  path_template_dir : string;
  path_template_random_no_ext : string;
  path_template_random_aux : string;
  ext_outfile : string;
  path_outfile_initial : string
}.

Definition paths_of (path_template_random path_outfile : string) : Paths :=
  let path_template_dir := posixpath.dirname path_template_random in
  let path_template_random_no_ext := (posixpath.splitext path_template_random).1 in
  let path_template_random_aux := path_template_random_no_ext +:+ ".aux" in
  let ext_outfile := (posixpath.splitext path_outfile).2 in
  let path_outfile_initial := path_template_random_no_ext +:+ ext_outfile in
  mkPaths path_template_random path_template_dir path_template_random_no_ext
          path_template_random_aux ext_outfile path_outfile_initial.

(** Lines 102-108: the special case of MS Word.  Answers the command of
    the convergence loop and [cmd_docx]. *)
Definition special_case (self : LatexBuild) (cmd_wo_infile : list string)
    (path_outfile_initial : string) : M (list string * option (list string)) :=
  let* head := getitem0 cmd_wo_infile in
  if String.eqb head "latex2rtf" && Nat.eqb (length cmd_wo_infile) 1
  then ret ([cmd_latex self], Some (cmd_wo_infile ++ ["-o"; path_outfile_initial]))
  else ret (cmd_wo_infile, None).

(** What the statements before the [try] leave in the local variables. *)
Record Plan : Type := mkPlan {
  text_template : string;
  paths : Paths;
  loop_cmd : list string;
  cmd_docx : option (list string)
}.

(** Lines 91-108. *)
Definition prologue (self : LatexBuild) (cmd_wo_infile : list string)
    (path_outfile : string) : M Plan :=
  let* text_template := get_text_template self in
  let* path_template_random := random_name_filepath (path_template self) in
  let ps := paths_of path_template_random path_outfile in
  let* (cmd_wo_infile, cmd_docx) :=
    special_case self cmd_wo_infile (path_outfile_initial ps) in
  ret (mkPlan text_template ps cmd_wo_infile cmd_docx).

(** Lines 118-120, the suite of the [while]: one compiler run, its output
    logged, and the fresh read of the auxiliary file. *)
Definition one_pass (cmd : list string) (path_template_dir path_template_random_aux : string)
    : M aux_content :=
  let* stdout := check_output_cwd cmd path_template_dir in
  LOGGER_debug (str_join newline stdout) ;;
  read_file path_template_random_aux.

(** Lines 116-120: [while old_aux != new_aux].  [passes] bounds the
    number of passes the model follows. *)
Fixpoint convergence_loop (passes : nat) (cmd : list string)
    (path_template_dir path_template_random_aux : string)
    (old_aux new_aux : aux_content) : M unit :=
  if decide (old_aux ≠ new_aux) then
    match passes with
    | 0 => fun w => Running w
    | S passes' =>
        let* read := one_pass cmd path_template_dir path_template_random_aux in
        convergence_loop passes' cmd path_template_dir path_template_random_aux
                         new_aux read
    end
  else ret tt.

(** Lines 115-120: the two sentinels and the loop. *)
Definition converge (passes : nat) (cmd : list string)
    (path_template_dir path_template_random_aux : string) : M unit :=
  let* old_aux := random_str_uuid 1 in
  let* new_aux := random_str_uuid 2 in
  convergence_loop passes cmd path_template_dir path_template_random_aux
                   old_aux new_aux.

(** [if cmd_docx:] is false for [None] and for an empty list. *)
Definition truthy (cmd_docx : option (list string)) : bool :=
  match cmd_docx with
  | Some (_ :: _) => true
  | _ => false
  end.

(** Lines 122-126: the second stage of a DOCX build. *)
Definition stage_docx (cmd_docx : option (list string))
    (path_template_random path_template_dir : string) : M unit :=
  match cmd_docx with
  | Some c =>
      if truthy cmd_docx then
        let cmd_word := c ++ [path_template_random] in
        let* stdout := check_output_cwd cmd_word path_template_dir in
        LOGGER_debug (str_join newline stdout)
      else ret tt
  | None => ret tt
  end.

(** Lines 111-120: the temporary source is written and the first stage
    runs until the auxiliary file stops changing. *)
Definition stage_A (passes : nat) (plan : Plan) : M unit :=
  let ps := paths plan in
  write_file (path_template_random ps) (text_template plan) ;;
  let cmd := loop_cmd plan ++ [path_template_random ps] in
  converge passes cmd (path_template_dir ps) (path_template_random_aux ps).

(** Lines 111-126: the suite of the [try] up to the move. *)
Definition before_move (passes : nat) (plan : Plan) : M unit :=
  stage_A passes plan ;;
  stage_docx (cmd_docx plan) (path_template_random (paths plan))
             (path_template_dir (paths plan)).

(** Lines 111-134: the suite of the [try]. *)
Definition build_body (passes : nat) (self : LatexBuild) (plan : Plan)
    (path_outfile : string) : M unit :=
  before_move passes plan ;;
  shutil_move (path_outfile_initial (paths plan)) path_outfile ;;
  LOGGER_info ("Built " +:+ path_outfile +:+ " from " +:+ path_template self).

(** Lines 138-145: the suite of the [finally]. *)
Definition cleanup (path_template_dir path_template_random_no_ext : string) : M unit :=
  let* path_gen := list_filepathes_with_predicate path_template_dir
                                                 path_template_random_no_ext in
  for_each path_gen os_remove.

(** Lines 110-145: [try] / [except Exception] / [finally]. *)
Definition guarded_build (passes : nat) (self : LatexBuild) (plan : Plan)
    (path_outfile : string) : M unit :=
  try_finally
    (try_except
       (build_body passes self plan path_outfile)
       (fun e => LOGGER_exception "Failed during latex build" e))
    (cleanup (path_template_dir (paths plan))
             (path_template_random_no_ext (paths plan))).

Definition run_latex (passes : nat) (self : LatexBuild)
    (cmd_wo_infile : list string) (path_outfile : string) : M string :=
  let* plan := prologue self cmd_wo_infile path_outfile in
  guarded_build passes self plan path_outfile ;;
  ret (text_template plan).

Definition build_pdf (passes : nat) (self : LatexBuild) (path_outfile : string)
    : M string :=
  has_file_extension path_outfile ".pdf" ;;
  run_latex passes self [cmd_latex self; "-interaction"; "nonstopmode"] path_outfile.

Definition build_html (passes : nat) (self : LatexBuild) (path_outfile : string)
    : M string :=
  has_file_extension path_outfile ".html" ;;
  run_latex passes self ["htlatex"] path_outfile.

Definition build_docx (passes : nat) (self : LatexBuild) (path_outfile : string)
    : M string :=
  has_file_extension path_outfile ".docx" ;;
  run_latex passes self ["latex2rtf"] path_outfile.

(** *** Vocabulary of the properties *)

(** The reads of the auxiliary file over [n] passes in a row starting in
    [w], oldest first, and the world they leave; [None] when one of the
    passes raises. *)
Fixpoint after_passes (n : nat) (cmd : list string) (dir aux : string) (w : World)
    : option (list aux_content * World) :=
  match n with
  | 0 => Some ([], w)
  | S n' =>
      match one_pass cmd dir aux w with
      | Returned r w1 =>
          match after_passes n' cmd dir aux w1 with
          | Some (rs, w2) => Some (r :: rs, w2)
          | None => None
          end
      | _ => None
      end
  end.

(** The place, counted from 1, of the first value of [rs] equal to the
    value before it, where [prev] comes before the first. *)
Fixpoint settle (prev : aux_content) (rs : list aux_content) : option nat :=
  match rs with
  | [] => None
  | r :: rs' => if decide (prev = r) then Some 1 else S <$> settle r rs'
  end.

(** The place, counted from 1, of the first read equal to the read before
    it: the number of compiler runs after which two consecutive reads of
    the auxiliary file are equal for the first time. *)
Definition first_repeat (rs : list aux_content) : option nat :=
  match rs with
  | [] => None
  | r :: rs' => S <$> settle r rs'
  end.

(** No value of [rs] is equal to the value before it, where [prev] comes
    before the first. *)
Fixpoint all_fresh (prev : aux_content) (rs : list aux_content) : bool :=
  match rs with
  | [] => true
  | r :: rs' => negb (bool_decide (prev = r)) && all_fresh r rs'
  end.

(** No read is equal to the read before it. *)
Definition reads_differ (rs : list aux_content) : bool :=
  match rs with
  | [] => true
  | r :: rs' => all_fresh r rs'
  end.

(** The second sentinel drawn by [converge] in [w], and the world in
    which its loop starts. *)
Definition second_sentinel (w : World) : aux_content :=
  Text (uuid_chars 2 (S (entropy w))).

Definition loop_start (w : World) : World :=
  mkWorld (files w) (procs w) (log w) (S (S (entropy w))) (outside w) (dirs w).

(** The caller of a Python function learns of a failure through an
    exception. *)
Definition reported_failed {A} (o : Outcome A) : Prop :=
  match o with
  | Raised _ _ => True
  | _ => False
  end.

Definition still_running {A} (o : Outcome A) : Prop :=
  match o with
  | Running _ => True
  | _ => False
  end.

(** Everything but the files is as it was. *)
Definition only_files_changed (w w' : World) : Prop :=
  procs w' = procs w ∧ log w' = log w ∧ entropy w' = entropy w ∧ outside w' = outside w
  ∧ dirs w' = dirs w.

(** [w'] has the files of [w] except those of the run, which are gone. *)
Definition cleaned (dir stem : string) (w w' : World) : Prop :=
  ∀ q, files w' !! q = if is_run_file dir stem q then None else files w !! q.

(** The world after the random file name has been drawn. *)
Definition name_drawn (w : World) : World :=
  mkWorld (files w) (procs w) (log w) (S (entropy w)) (outside w) (dirs w).

(** The first word of a command: the binary it launches. *)
Definition binary_of (call : list string * string) : option string := head call.1.

End Driver.

(** ** A mock toolchain

    Concrete collaborators in the manner of the test doubles of section 8:
    a renderer that reads the template file, a random source that is a
    function of its state, and a compiler that follows a script.  The
    script answers, for the number of compiler runs so far, the text the
    next run leaves in the auxiliary file, or [None] for a run that exits
    with status 1. *)
Module Mock.

Definition hex_digit (seed : nat) : ascii :=
  nth (seed mod 16) (String.list_ascii_of_string "0123456789ABCDEF") "0"%char.

Fixpoint chars (c : ascii) (n : nat) : string :=
  match n with
  | 0 => EmptyString
  | S n' => String c (chars c n')
  end.

Definition uuid_chars (n seed : nat) : string := chars (hex_digit seed) n.

Definition uuid_chars_length (n seed : nat) : String.length (uuid_chars n seed) = n :=
  nat_ind (fun n => String.length (chars (hex_digit seed) n) = n)
          eq_refl (fun n IH => f_equal S IH) n.

Definition fresh_name (path_full : string) (seed : nat) : string :=
  let '(pre, ext) := posixpath.splitext path_full in
  pre +:+ uuid_chars 5 seed +:+ ext.

Definition render (root name : string) (kwargs : option (gmap string string))
    (filters : option (gmap string (string → string)))
    (fs : gmap string string) : exn + string :=
  match fs !! posixpath.canon (posixpath.join root name) with
  | Some text => inr text
  | None => inl TemplateError
  end.

Definition file_text (path : string) (fs : gmap string string) : exn + aux_content :=
  match fs !! posixpath.canon path with
  | Some text => inr (Text text)
  | None => inl FileNotFoundError
  end.

Definition produced_ext (binary : string) : string :=
  if String.eqb binary "htlatex" then ".html" else ".pdf".

(** The compiler takes its input file as the last argument.  [latex2rtf]
    writes the file named after [-o]; every other binary consults the
    script, writes the auxiliary file, a log and its output next to the
    input, or fails leaving only a log. *)
Definition subprocess (script : nat → option string) (cmd : list string)
    (cwd : string) (fs : gmap string string) (runs : nat)
    : (exn + list string) * gmap string string * nat :=
  let infile := List.last cmd "" in
  let stem := (posixpath.splitext infile).1 in
  let at_ ext := posixpath.canon (stem +:+ ext) in
  match cmd with
  | "latex2rtf" :: "-o" :: out :: _ =>
      (inr ["latex2rtf: done"], <[posixpath.canon out := "docx"]> fs, S runs)
  | binary :: _ =>
      match script runs with
      | Some aux =>
          (inr ["pass " +:+ binary],
           <[at_ ".aux" := aux]>
             (<[at_ (produced_ext binary) := "typeset"]>
                (<[at_ ".log" := "ok"]> fs)),
           S runs)
      | None =>
          (inl (CalledProcessError 1), <[at_ ".log" := "error"]> fs, S runs)
      end
  | [] => (inl OSError, fs, runs)
  end.

Definition toolchain (script : nat → option string) : Collaborators :=
  Build_Collaborators render uuid_chars uuid_chars_length fresh_name file_text
                      (subprocess script).

(** A compiler whose auxiliary file is the same from the first run on. *)
Definition steady : nat → option string := fun _ => Some "\relax".

(** A compiler whose auxiliary file changes on the first three runs and
    is stable from then on. *)
Definition settling : nat → option string :=
  fun n => Some (if Nat.ltb n 3 then "labels " +:+ uuid_chars 1 n else "labels done").

(** A compiler that exits with status 1 on its second run. *)
Definition failing : nat → option string :=
  fun n => if Nat.eqb n 1 then None else Some "\relax".

(** A compiler whose auxiliary file is different after every run. *)
Definition restless : nat → option string :=
  fun n => Some (chars "x" n).

(** Compilers whose first auxiliary file happens to be the two
    characters that the random source answers in state 1; afterwards the
    first behaves as [settling], the second as [restless]. *)
Definition settling_after_collision : nat → option string :=
  fun n => if Nat.eqb n 0 then Some (uuid_chars 2 1) else settling n.

Definition restless_after_collision : nat → option string :=
  fun n => if Nat.eqb n 0 then Some (uuid_chars 2 1) else restless n.

(** A directory with one template, and a world that has seen nothing. *)
Definition disk : gmap string string := {[ "tpl/doc.tex" := "\documentclass{article}" ]}.

Definition world0 : World := mkWorld disk [] [] 0 0 {[ "tpl"; "out" ]}.

Definition job : LatexBuild :=
  LatexBuild_init "tpl" "doc.tex" None None "pdflatex".

(** The same job with [latex2rtf] configured as the primary compiler. *)
Definition job_rtf : LatexBuild :=
  LatexBuild_init "tpl" "doc.tex" None None "latex2rtf".

(** The loop command, directory and auxiliary file of a run whose
    temporary source is [tpl/doc00000.tex]. *)
Definition cmd : list string := ["pdflatex"; "tpl/doc00000.tex"].
Definition dir : string := "tpl".
Definition aux : string := "tpl/doc00000.aux".

End Mock.

(** ** Vocabulary of the further properties *)

Section MoreVocabulary.

Context {C : Collaborators}.

(** The world after line 113 has written the temporary source. *)
Definition source_written (plan : Plan) (w : World) : World :=
  set_files (<[posixpath.canon (path_template_random (paths plan))
               := text_template plan]> (files w)) w.

(** The compiler, run in [dir] on the input [tmp] (its last argument),
    leaves the file at [p] as it finds it, [p] absent included. *)
Definition leaves_alone (dir tmp p : string) : Prop :=
  ∀ cmd fs h, last cmd = Some tmp → (subprocess cmd dir fs h).1.2 !! p = fs !! p.

(** The record that line 129 emits. *)
Definition built_record (self : LatexBuild) (path_outfile : string) : LogRecord :=
  mkLog INFO ("Built " +:+ path_outfile +:+ " from " +:+ path_template self) None.

(** The record that line 136 emits for the exception [e]. *)
Definition failed_record (e : exn) : LogRecord :=
  mkLog ERROR "Failed during latex build" (Some e).

(** The records that lines 119 and 126 emit. *)
Definition is_debug (r : LogRecord) : Prop := lvl r = DEBUG ∧ exc_info r = None.

End MoreVocabulary.

(** ** More test doubles *)
Module Scenario.

(** A compiler that writes its output next to its input and no auxiliary
    file. *)
Definition no_aux (cmd : list string) (cwd : string) (fs : gmap string string)
    (runs : nat) : (exn + list string) * gmap string string * nat :=
  let stem := (posixpath.splitext (default "" (last cmd))).1 in
  (inr ["pass"], <[posixpath.canon (stem +:+ ".pdf") := "typeset"]> fs, S runs).

(** A compiler that is interrupted from the keyboard after it has begun
    its log. *)
Definition interrupted (cmd : list string) (cwd : string) (fs : gmap string string)
    (runs : nat) : (exn + list string) * gmap string string * nat :=
  let stem := (posixpath.splitext (default "" (last cmd))).1 in
  (inl KeyboardInterrupt, <[posixpath.canon (stem +:+ ".log") := "partial"]> fs, S runs).

(** A compiler that writes the same auxiliary file every time and its
    output, both next to its input, and nothing else. *)
Definition tidy (cmd : list string) (cwd : string) (fs : gmap string string)
    (runs : nat) : (exn + list string) * gmap string string * nat :=
  let stem := (posixpath.splitext (default "" (last cmd))).1 in
  (inr ["pass"],
   <[posixpath.canon (stem +:+ ".aux") := "\relax"]>
     (<[posixpath.canon (stem +:+ ".pdf") := "typeset"]> fs),
   S runs).

(** A compiler that exits with status 1 and leaves the files alone. *)
Definition broken (cmd : list string) (cwd : string) (fs : gmap string string)
    (runs : nat) : (exn + list string) * gmap string string * nat :=
  (inl (CalledProcessError 1), fs, S runs).

Definition toolchain
    (sub : list string → string → gmap string string → nat →
           (exn + list string) * gmap string string * nat) : Collaborators :=
  Build_Collaborators Mock.render Mock.uuid_chars Mock.uuid_chars_length
                      Mock.fresh_name Mock.file_text sub.

(** A job whose template is not on the disk. *)
Definition job_missing : LatexBuild :=
  LatexBuild_init "tpl" "missing.tex" None None "pdflatex".

(** A disk with the template, a file of another run in the template
    directory, and an artifact of an earlier build. *)
Definition busy_disk : gmap string string :=
  {[ "tpl/doc.tex" := "\documentclass{article}";
     "tpl/doc9F3A1.aux" := "\relax";
     "out/doc.pdf" := "earlier" ]}.

Definition busy_world : World := mkWorld busy_disk [] [] 0 0 {[ "tpl"; "out" ]}.

(** A world in which [out/doc.pdf] is a directory. *)
Definition shadowed_world : World :=
  mkWorld Mock.disk [] [] 0 0 {[ "tpl"; "out"; "out/doc.pdf" ]}.

(** A template tree that is named with a doubled slash at its end, the
    template in it, and the directory of the outputs beside it. *)
Definition job_slashes : LatexBuild :=
  LatexBuild_init "/srv/tpl//" "doc.tex" None None "pdflatex".

Definition slashes_world : World :=
  mkWorld {[ "/srv/tpl/doc.tex" := "\documentclass{article}" ]} [] [] 0 0
          {[ "/srv"; "/srv/tpl"; "/srv/out" ]}.

End Scenario.

(** * Properties *)

(** ** Path functions on examples *)

Example splitext_plain : posixpath.splitext "tpl/doc.tex" = ("tpl/doc", ".tex").
Proof. reflexivity. Qed.
Example splitext_dotfile : posixpath.splitext "tpl/.bashrc" = ("tpl/.bashrc", "").
Proof. reflexivity. Qed.
Example splitext_dotted_dir : posixpath.splitext "a.b/doc" = ("a.b/doc", "").
Proof. reflexivity. Qed.
Example splitext_two_dots : posixpath.splitext "out.tar.gz" = ("out.tar", ".gz").
Proof. reflexivity. Qed.
Example dirname_plain : posixpath.dirname "tpl/sub/doc.tex" = "tpl/sub".
Proof. reflexivity. Qed.
Example dirname_root : posixpath.dirname "/doc.tex" = "/".
Proof. reflexivity. Qed.
Example dirname_none : posixpath.dirname "doc.tex" = "".
Proof. reflexivity. Qed.
Example join_plain : posixpath.join "tpl" "doc.tex" = "tpl/doc.tex".
Proof. reflexivity. Qed.
Example join_slash : posixpath.join "tpl/" "doc.tex" = "tpl/doc.tex".
Proof. reflexivity. Qed.
Example join_abs : posixpath.join "tpl" "/doc.tex" = "/doc.tex".
Proof. reflexivity. Qed.

Section Properties.

Context {C : Collaborators}.

Lemma for_each_remove (f : string → string) (ks : list string) (w : World) :
  NoDup ks →
  (∀ k, k ∈ ks → locate (f k) = Some k ∧ is_Some (files w !! k)) →
  ∃ w', for_each (map f ks) os_remove w = Returned tt w'
        ∧ (∀ q, files w' !! q = if decide (q ∈ ks) then None else files w !! q)
        ∧ only_files_changed w w'.
Proof.
  revert w. induction ks as [|p l IH]; intros w Hnd Hin.
  - exists w. split; [done|]. split; [|done].
    intros q. case_decide as Hq; [by apply elem_of_nil in Hq | done].
  - apply NoDup_cons in Hnd as [Hp Hnd].
    destruct (Hin p) as [Hloc [c Hc]]; [left|].
    destruct (IH (set_files (delete p (files w)) w)) as (w' & Hrun & Hfiles & Hrest).
    + done.
    + intros q Hq. destruct (Hin q) as [Hlq Hsq]; [by right|]. split; [done|].
      simpl. rewrite lookup_delete_ne; [done|]. intros ->. done.
    + exists w'. split; [|split].
      * simpl. unfold bind at 1. unfold os_remove at 1. rewrite Hloc, Hc. exact Hrun.
      * intros q. rewrite Hfiles. simpl.
        destruct (decide (q = p)) as [->|Hne].
        -- rewrite (decide_True (P := p ∈ p :: l)); [|left].
           case_decide; [done | apply lookup_delete_eq].
        -- rewrite lookup_delete_ne; [|done].
           destruct (decide (q ∈ l)) as [Hl|Hl].
           ++ rewrite (decide_True (P := q ∈ p :: l)); [done | by right].
           ++ rewrite (decide_False (P := q ∈ p :: l)); [done|].
              intros [?|?]%elem_of_cons; done.
      * exact Hrest.
Qed.

(** What the listing names is where the listing found it. *)
Lemma run_file_located (dir stem k : string) :
  is_run_file dir stem k = true →
  locate (posixpath.join dir (posixpath.basename k)) = Some k.
Proof.
  unfold is_run_file. intros H.
  apply andb_prop in H as [H _]. apply andb_prop in H as [_ H].
  by apply bool_decide_eq_true in H.
Qed.

(** The [finally] suite never raises, deletes exactly the files of the
    run and touches nothing else. *)
Lemma cleanup_spec (dir stem : string) (w : World) :
  ∃ w', cleanup dir stem w = Returned tt w'
        ∧ cleaned dir stem w w'
        ∧ only_files_changed w w'.
Proof.
  unfold cleaned, cleanup, bind, list_filepathes_with_predicate.
  set (l := filter _ _).
  assert (Hmem : ∀ p, p ∈ l ↔ is_run_file dir stem p = true ∧ is_Some (files w !! p)).
  { intros p. unfold l. rewrite list_elem_of_filter, list_elem_of_fmap. split.
    - intros [Hp ([k v] & -> & Hkv)]. split; [done|].
      apply elem_of_map_to_list in Hkv. by exists v.
    - intros [Hp [v Hv]]. split; [done|]. exists (p, v). split; [done|].
      by apply elem_of_map_to_list. }
  destruct (for_each_remove (fun k => posixpath.join dir (posixpath.basename k)) l w)
    as (w' & Hrun & Hfiles & Hrest).
  - apply NoDup_filter, NoDup_fst_map_to_list.
  - intros p Hp. apply Hmem in Hp as [Hrf ?]. split; [|done].
    by apply run_file_located in Hrf.
  - exists w'. split; [done|]. split; [|done].
    intros q. rewrite Hfiles. case_decide as Hq.
    + apply Hmem in Hq as [-> _]. done.
    + destruct (is_run_file dir stem q) eqn:Hrf; [|done].
      destruct (files w !! q) eqn:Hl; [|done].
      exfalso. apply Hq, Hmem. by split.
Qed.

(** *** The three exits of the guarded build *)

Lemma guarded_returned passes self plan out w0 w1 :
  build_body passes self plan out w0 = Returned tt w1 →
  ∃ w2, guarded_build passes self plan out w0 = Returned tt w2
        ∧ cleaned (path_template_dir (paths plan))
                  (path_template_random_no_ext (paths plan)) w1 w2
        ∧ only_files_changed w1 w2.
Proof.
  intros Hb.
  destruct (cleanup_spec (path_template_dir (paths plan))
              (path_template_random_no_ext (paths plan)) w1) as (w2 & Hc & Hf & Hr).
  exists w2. split; [|done].
  unfold guarded_build, try_finally, try_except. rewrite Hb.
  unfold bind. by rewrite Hc.
Qed.

Lemma guarded_caught passes self plan out w0 w1 e :
  build_body passes self plan out w0 = Raised e w1 →
  is_Exception e = true →
  ∃ w2, guarded_build passes self plan out w0 = Returned tt w2
        ∧ cleaned (path_template_dir (paths plan))
                  (path_template_random_no_ext (paths plan)) w1 w2
        ∧ procs w2 = procs w1
        ∧ log w2 = log w1 ++ [mkLog ERROR "Failed during latex build" (Some e)]
        ∧ entropy w2 = entropy w1 ∧ outside w2 = outside w1 ∧ dirs w2 = dirs w1.
Proof.
  intros Hb He.
  set (wl := mkWorld (files w1) (procs w1)
               (log w1 ++ [mkLog ERROR "Failed during latex build" (Some e)])
               (entropy w1) (outside w1) (dirs w1)).
  destruct (cleanup_spec (path_template_dir (paths plan))
              (path_template_random_no_ext (paths plan)) wl)
    as (w2 & Hc & Hf & Hp & Hl & Hen & Ho & Hd).
  exists w2. split; [|done].
  unfold guarded_build, try_finally, try_except. rewrite Hb, He.
  unfold LOGGER_exception, emit, bind. fold wl. by rewrite Hc.
Qed.

Lemma guarded_uncaught passes self plan out w0 w1 e :
  build_body passes self plan out w0 = Raised e w1 →
  is_Exception e = false →
  ∃ w2, guarded_build passes self plan out w0 = Raised e w2
        ∧ cleaned (path_template_dir (paths plan))
                  (path_template_random_no_ext (paths plan)) w1 w2
        ∧ only_files_changed w1 w2.
Proof.
  intros Hb He.
  destruct (cleanup_spec (path_template_dir (paths plan))
              (path_template_random_no_ext (paths plan)) w1) as (w2 & Hc & Hf & Hr).
  exists w2. split; [|done].
  unfold guarded_build, try_finally, try_except. rewrite Hb, He.
  unfold bind. by rewrite Hc.
Qed.

Lemma guarded_running passes self plan out w0 w1 :
  build_body passes self plan out w0 = Running w1 →
  guarded_build passes self plan out w0 = Running w1.
Proof.
  intros Hb. unfold guarded_build, try_finally, try_except. by rewrite Hb.
Qed.

(** *** The statements before the [try] *)

Lemma prologue_render_fails self cmd out w e :
  render (path_jinja2 self) (template_name self) (template_kwargs self)
         (filters self) (files w) = inl e →
  prologue self cmd out w = Raised e w.
Proof.
  intros Hr. unfold prologue, bind, get_text_template, render_latex_template.
  by rewrite Hr.
Qed.

Lemma prologue_empty self out w text :
  render (path_jinja2 self) (template_name self) (template_kwargs self)
         (filters self) (files w) = inr text →
  prologue self [] out w = Raised IndexError (name_drawn w).
Proof.
  intros Hr. unfold prologue, bind, get_text_template, render_latex_template.
  by rewrite Hr.
Qed.

Lemma prologue_nonempty self c cs out w text :
  render (path_jinja2 self) (template_name self) (template_kwargs self)
         (filters self) (files w) = inr text →
  let ps := paths_of (fresh_name (path_template self) (entropy w)) out in
  prologue self (c :: cs) out w =
    Returned
      (if String.eqb c "latex2rtf" && Nat.eqb (length (c :: cs)) 1
       then mkPlan text ps [cmd_latex self]
                   (Some ((c :: cs) ++ ["-o"; path_outfile_initial ps]))
       else mkPlan text ps (c :: cs) None)
      (name_drawn w).
Proof.
  intros Hr ps. unfold prologue, bind, get_text_template, render_latex_template.
  rewrite Hr. unfold random_name_filepath, special_case, bind. cbn [getitem0 ret].
  fold ps. by destruct (String.eqb c "latex2rtf" && Nat.eqb (length (c :: cs)) 1).
Qed.

(** Whatever the prologue returns comes from a successful rendering and a
    command that has a first word. *)
Lemma prologue_returned self cmd out w plan w0 :
  prologue self cmd out w = Returned plan w0 →
  render (path_jinja2 self) (template_name self) (template_kwargs self)
         (filters self) (files w) = inr (text_template plan)
  ∧ cmd ≠ [] ∧ w0 = name_drawn w
  ∧ paths plan = paths_of (fresh_name (path_template self) (entropy w)) out.
Proof.
  intros Hp.
  destruct (render (path_jinja2 self) (template_name self) (template_kwargs self)
              (filters self) (files w)) as [e|text] eqn:Hr.
  - by rewrite (prologue_render_fails _ _ _ _ _ Hr) in Hp.
  - destruct cmd as [|c cs].
    + by rewrite (prologue_empty _ _ _ _ Hr) in Hp.
    + rewrite (prologue_nonempty _ _ _ _ _ _ Hr) in Hp.
      destruct (String.eqb c "latex2rtf" && Nat.eqb (length (c :: cs)) 1);
        injection Hp as <- <-; done.
Qed.

Lemma run_latex_unfold passes self cmd out w plan w0 :
  prologue self cmd out w = Returned plan w0 →
  run_latex passes self cmd out w =
    (guarded_build passes self plan out ;; ret (text_template plan)) w0.
Proof. intros Hp. unfold run_latex at 1, bind at 1. by rewrite Hp. Qed.

Lemma run_latex_returned passes self cmd out w plan w0 w1 :
  prologue self cmd out w = Returned plan w0 →
  build_body passes self plan out w0 = Returned tt w1 →
  ∃ w2, run_latex passes self cmd out w = Returned (text_template plan) w2
        ∧ cleaned (path_template_dir (paths plan))
                  (path_template_random_no_ext (paths plan)) w1 w2
        ∧ only_files_changed w1 w2.
Proof.
  intros Hp Hb. destruct (guarded_returned _ _ _ _ _ _ Hb) as (w2 & Hg & Hc & Hr).
  exists w2. split; [|done].
  rewrite (run_latex_unfold _ _ _ _ _ _ _ Hp). unfold bind. by rewrite Hg.
Qed.

Lemma run_latex_caught passes self cmd out w plan w0 w1 e :
  prologue self cmd out w = Returned plan w0 →
  build_body passes self plan out w0 = Raised e w1 →
  is_Exception e = true →
  ∃ w2, run_latex passes self cmd out w = Returned (text_template plan) w2
        ∧ cleaned (path_template_dir (paths plan))
                  (path_template_random_no_ext (paths plan)) w1 w2
        ∧ procs w2 = procs w1
        ∧ log w2 = log w1 ++ [mkLog ERROR "Failed during latex build" (Some e)].
Proof.
  intros Hp Hb He.
  destruct (guarded_caught _ _ _ _ _ _ _ Hb He) as (w2 & Hg & Hc & Hpr & Hl & _).
  exists w2. split; [|done].
  rewrite (run_latex_unfold _ _ _ _ _ _ _ Hp). unfold bind. by rewrite Hg.
Qed.

Lemma run_latex_uncaught passes self cmd out w plan w0 w1 e :
  prologue self cmd out w = Returned plan w0 →
  build_body passes self plan out w0 = Raised e w1 →
  is_Exception e = false →
  ∃ w2, run_latex passes self cmd out w = Raised e w2
        ∧ cleaned (path_template_dir (paths plan))
                  (path_template_random_no_ext (paths plan)) w1 w2
        ∧ only_files_changed w1 w2.
Proof.
  intros Hp Hb He.
  destruct (guarded_uncaught _ _ _ _ _ _ _ Hb He) as (w2 & Hg & Hc & Hr).
  exists w2. split; [|done].
  rewrite (run_latex_unfold _ _ _ _ _ _ _ Hp). unfold bind. by rewrite Hg.
Qed.

Lemma run_latex_running passes self cmd out w plan w0 w1 :
  prologue self cmd out w = Returned plan w0 →
  build_body passes self plan out w0 = Running w1 →
  run_latex passes self cmd out w = Running w1.
Proof.
  intros Hp Hb. rewrite (run_latex_unfold _ _ _ _ _ _ _ Hp). unfold bind.
  by rewrite (guarded_running _ _ _ _ _ _ Hb).
Qed.

(** A compiler that fails or cannot be launched, in the loop or in the
    second stage, makes the suite of the [try] raise. *)
Lemma build_body_compiler_fails passes self plan out w0 e w1 :
  before_move passes plan w0 = Raised e w1 →
  build_body passes self plan out w0 = Raised e w1.
Proof. intros Hb. unfold build_body, bind at 1. by rewrite Hb. Qed.

(** A move either raises an exception that derives from [Exception] and
    changes nothing, or takes the file from where it is to where
    [real_dst] says. *)
Lemma shutil_move_cases src dst w :
  (∃ e, shutil_move src dst w = Raised e w ∧ is_Exception e = true)
  ∨ (∃ k c, locate src = Some k ∧ files w !! k = Some c
            ∧ shutil_move src dst w =
                Returned tt (set_files (<[posixpath.canon (real_dst w src dst) := c]>
                                          (delete k (files w))) w)).
Proof.
  unfold shutil_move.
  destruct (os_path_isdir w dst && os_path_exists w (real_dst w src dst));
    [by left; eexists|].
  destruct (locate src) as [k|]; [|by left; eexists].
  destruct (files w !! k) as [c|] eqn:Hc; [|by left; eexists].
  destruct (String.eqb (real_dst w src dst) ""); [by left; eexists|].
  destruct (is_directory w (parent (posixpath.canon (real_dst w src dst)))).
  - destruct (posixpath.endswith "/" (real_dst w src dst));
      [by left; eexists | by right; exists k, c].
  - destruct (under_a_file w (posixpath.canon (real_dst w src dst)));
      by left; eexists.
Qed.

(** A move of a file that is not there raises and changes nothing. *)
Lemma shutil_move_missing src dst w :
  os_path_isfile w src = false →
  ∃ e, shutil_move src dst w = Raised e w ∧ is_Exception e = true.
Proof.
  intros Hm. destruct (shutil_move_cases src dst w) as [?|(k & c & Hk & Hc & _)]; [done|].
  unfold os_path_isfile in Hm. rewrite Hk in Hm.
  apply bool_decide_eq_false in Hm. destruct Hm. by rewrite Hc.
Qed.

(** If the suite of the [try] reaches the move and the initial output is
    not there, the suite raises. *)
Lemma build_body_output_missing passes self plan out w0 wp :
  before_move passes plan w0 = Returned tt wp →
  os_path_isfile wp (path_outfile_initial (paths plan)) = false →
  ∃ e, build_body passes self plan out w0 = Raised e wp ∧ is_Exception e = true.
Proof.
  intros Hb Hm. unfold build_body, bind at 1. rewrite Hb.
  destruct (shutil_move_missing _ out _ Hm) as (e & He & Hex).
  exists e. split; [|done]. unfold bind. by rewrite He.
Qed.

(** ** C1: a failure inside the build body *)

(** C1, corrected.  When the suite of the [try] fails with an exception
    that derives from [Exception] (a compiler that exits with a non-zero
    status or cannot be launched, an initial output that is missing at
    move time), the error is logged with the exception attached, the
    files of the run are deleted, and [run_latex] returns the rendered
    text as it does after a success: the failure is not reported to the
    caller. *)
Theorem C1_failure_logged_cleaned_text_returned
    passes self cmd out w plan w0 e w1 :
  prologue self cmd out w = Returned plan w0 →
  build_body passes self plan out w0 = Raised e w1 →
  is_Exception e = true →
  ∃ w2, run_latex passes self cmd out w = Returned (text_template plan) w2
        ∧ log w2 = log w1 ++ [mkLog ERROR "Failed during latex build" (Some e)]
        ∧ cleaned (path_template_dir (paths plan))
                  (path_template_random_no_ext (paths plan)) w1 w2
        ∧ ¬ reported_failed (run_latex passes self cmd out w).
Proof.
  intros Hp Hb He.
  destruct (run_latex_caught _ _ _ _ _ _ _ _ _ Hp Hb He) as (w2 & Hr & Hc & _ & Hl).
  exists w2. rewrite Hr. repeat split; try done. intros [].
Qed.

(** ** C9: what the caller gets back *)

(** C9, corrected.  When the statements before the [try] succeed (the
    template is rendered and the command has a first word), the suite of
    the [try] ends, and whatever it raises derives from [Exception],
    [run_latex] returns the rendered text and raises nothing. *)
Theorem C9_text_returned_when_body_ends passes self cmd out w plan w0 :
  prologue self cmd out w = Returned plan w0 →
  ¬ still_running (build_body passes self plan out w0) →
  (∀ e w1, build_body passes self plan out w0 = Raised e w1 → is_Exception e = true) →
  render (path_jinja2 self) (template_name self) (template_kwargs self)
         (filters self) (files w) = inr (text_template plan)
  ∧ ∃ w2, run_latex passes self cmd out w = Returned (text_template plan) w2.
Proof.
  intros Hp Hend Hexc. split; [by apply (prologue_returned _ _ _ _ _ _ Hp)|].
  destruct (build_body passes self plan out w0) as [[] w1|e w1|w1] eqn:Hb.
  - destruct (run_latex_returned _ _ _ _ _ _ _ _ Hp Hb) as (w2 & Hr & _). eauto.
  - destruct (run_latex_caught _ _ _ _ _ _ _ _ _ Hp Hb (Hexc _ _ eq_refl))
      as (w2 & Hr & _). eauto.
  - destruct Hend. done.
Qed.

(** ** C10: an empty command *)

(** C10.  With an empty command, a [run_latex] whose template renders
    raises [IndexError]; no file has been written and no process launched
    by then: the world differs from the initial one only in the state of
    the random source.  A template that does not render raises its own
    error first. *)
Theorem C10_empty_command_raises_IndexError passes self out w :
  match render (path_jinja2 self) (template_name self) (template_kwargs self)
               (filters self) (files w) with
  | inr text =>
      run_latex passes self [] out w = Raised IndexError (name_drawn w)
      ∧ files (name_drawn w) = files w
      ∧ procs (name_drawn w) = procs w
  | inl e => run_latex passes self [] out w = Raised e w
  end.
Proof.
  destruct (render _ _ _ _ _) as [e|text] eqn:Hr.
  - unfold run_latex, bind. by rewrite (prologue_render_fails _ _ _ _ _ Hr).
  - split; [|done]. unfold run_latex, bind. by rewrite (prologue_empty _ _ _ _ Hr).
Qed.

(** ** C7: the wrappers check the extension first *)

(** C7.  A wrapper called with an output path whose extension is not its
    own raises [ValueError] in the world it was called in: no file has
    been written, no process launched, no random name drawn. *)
Theorem C7_extension_mismatch_fails_first passes self out w :
  ((posixpath.splitext out).2 ≠ ".pdf" →
     build_pdf passes self out w = Raised ValueError w)
  ∧ ((posixpath.splitext out).2 ≠ ".html" →
     build_html passes self out w = Raised ValueError w)
  ∧ ((posixpath.splitext out).2 ≠ ".docx" →
     build_docx passes self out w = Raised ValueError w).
Proof.
  repeat split; intros Hext;
    unfold build_pdf, build_html, build_docx, bind, has_file_extension;
    by rewrite (decide_False (P := _ = _)).
Qed.

(** *** The convergence loop *)

Lemma one_pass_procs cmd dir aux w :
  procs (world_of (one_pass cmd dir aux w)) = procs w ++ [(cmd, dir)].
Proof.
  unfold one_pass, bind, check_output_cwd.
  destruct (subprocess cmd dir (files w) (outside w)) as [[[e|stdout] f] h]; [done|].
  unfold LOGGER_debug, emit, read_file. simpl.
  by destruct (file_text aux f).
Qed.

Lemma repeat_snoc {A} (x : A) (n : nat) : repeat x n ++ [x] = x :: repeat x n.
Proof. induction n as [|n IH]; [done|]. simpl. by rewrite IH. Qed.

Lemma after_passes_procs n cmd dir aux w rs w' :
  after_passes n cmd dir aux w = Some (rs, w') →
  length rs = n ∧ procs w' = procs w ++ repeat (cmd, dir) n.
Proof.
  revert w rs w'. induction n as [|n IH]; intros w rs w' H; simpl in H.
  - injection H as <- <-. by rewrite app_nil_r.
  - pose proof (one_pass_procs cmd dir aux w) as Hp.
    destruct (one_pass cmd dir aux w) as [r w1| |]; [|done..].
    destruct (after_passes n cmd dir aux w1) as [[rs1 w2]|] eqn:Hn; [|done].
    injection H as <- <-. destruct (IH _ _ _ Hn) as [Hlen Hpr].
    split; [simpl; by rewrite Hlen|].
    rewrite Hpr. simpl in Hp. rewrite Hp, <- app_assoc. done.
Qed.

(** Every process the loop launches is the loop command in the temp
    directory, and there are at most [passes] of them. *)
Lemma convergence_loop_procs passes cmd dir aux old new w :
  ∃ k, (k ≤ passes)%nat
       ∧ procs (world_of (convergence_loop passes cmd dir aux old new w))
         = procs w ++ repeat (cmd, dir) k.
Proof.
  revert old new w. induction passes as [|passes IH]; intros old new w; simpl.
  - exists 0. split; [done|]. case_decide; simpl; by rewrite app_nil_r.
  - case_decide as Hne; [|exists 0; split; [lia | simpl; by rewrite app_nil_r]].
    unfold bind. pose proof (one_pass_procs cmd dir aux w) as Hp.
    destruct (one_pass cmd dir aux w) as [r w1|e w1|w1]; simpl in Hp.
    + destruct (IH new r w1) as (k & Hk & Hpr). exists (S k). split; [lia|].
      rewrite Hpr, Hp, <- app_assoc. done.
    + exists 1. split; [lia | done].
    + exists 1. split; [lia | done].
Qed.

(** With two different values in hand, a loop that may make a pass makes
    one. *)
Lemma convergence_loop_enters passes cmd dir aux old new w :
  old ≠ new →
  ∃ k, procs (world_of (convergence_loop (S passes) cmd dir aux old new w))
       = procs w ++ (cmd, dir) :: repeat (cmd, dir) k.
Proof.
  intros Hne. simpl. rewrite decide_True; [|done].
  unfold bind. pose proof (one_pass_procs cmd dir aux w) as Hp.
  destruct (one_pass cmd dir aux w) as [r w1|e w1|w1]; simpl in Hp.
  - destruct (convergence_loop_procs passes cmd dir aux new r w1) as (k & _ & Hpr).
    exists k. rewrite Hpr, Hp, <- app_assoc. done.
  - by exists 0.
  - by exists 0.
Qed.

(** The loop ends with the pass whose read is the first to equal the
    value read before it. *)
Lemma convergence_loop_settles n passes cmd dir aux old new w rs w' :
  after_passes n cmd dir aux w = Some (rs, w') →
  settle new rs = Some n →
  old ≠ new →
  (n ≤ passes)%nat →
  convergence_loop passes cmd dir aux old new w = Returned tt w'.
Proof.
  revert passes old new w rs w'.
  induction n as [|n IH]; intros passes old new w rs w' Hreads Hset Hne Hle.
  - simpl in Hreads. injection Hreads as <- <-. done.
  - destruct passes as [|passes]; [lia|].
    simpl in Hreads |- *. rewrite decide_True; [|done]. unfold bind.
    destruct (one_pass cmd dir aux w) as [r w1| |]; [|done..].
    destruct (after_passes n cmd dir aux w1) as [[rs1 w2]|] eqn:Hn; [|done].
    injection Hreads as <- <-. simpl in Hset.
    destruct (decide (new = r)) as [->|Hnr].
    + injection Hset as <-. simpl in Hn. injection Hn as <- <-.
      destruct passes; simpl; by rewrite decide_False by (by intros []).
    + destruct (settle r rs1) as [m|] eqn:Hm; [|done].
      simpl in Hset. injection Hset as <-.
      apply (IH passes new r w1 rs1 w2); [done..|lia].
Qed.

(** It does not end before that pass. *)
Lemma convergence_loop_not_before n passes cmd dir aux old new w rs w' :
  after_passes n cmd dir aux w = Some (rs, w') →
  settle new rs = Some n →
  old ≠ new →
  (passes < n)%nat →
  still_running (convergence_loop passes cmd dir aux old new w).
Proof.
  revert n old new w rs w'.
  induction passes as [|passes IH]; intros n old new w rs w' Hreads Hset Hne Hlt.
  - simpl. by rewrite decide_True.
  - destruct n as [|k]; [lia|].
    simpl in Hreads |- *. rewrite decide_True; [|done]. unfold bind.
    destruct (one_pass cmd dir aux w) as [r w1| |]; [|done..].
    destruct (after_passes k cmd dir aux w1) as [[rs1 w2]|] eqn:Hn; [|done].
    injection Hreads as <- <-. simpl in Hset.
    destruct (decide (new = r)) as [->|Hnr]; [injection Hset as <-; lia|].
    destruct (settle r rs1) as [m|] eqn:Hm; [|done].
    simpl in Hset. injection Hset as ->.
    apply (IH k new r w1 rs1 w2); [done..|lia].
Qed.

(** A loop whose every read differs from the value before it uses up any
    budget. *)
Lemma convergence_loop_restless passes cmd dir aux old new w :
  old ≠ new →
  (∀ n, match after_passes n cmd dir aux w with
        | Some (rs, _) => all_fresh new rs = true
        | None => False
        end) →
  ∃ w', convergence_loop passes cmd dir aux old new w = Running w'
        ∧ procs w' = procs w ++ repeat (cmd, dir) passes.
Proof.
  revert old new w. induction passes as [|passes IH]; intros old new w Hne Hall.
  - exists w. simpl. rewrite decide_True; [|done]. by rewrite app_nil_r.
  - simpl. rewrite decide_True; [|done]. unfold bind.
    pose proof (one_pass_procs cmd dir aux w) as Hp.
    pose proof (Hall 1) as H1. simpl in H1.
    destruct (one_pass cmd dir aux w) as [r w1| |] eqn:Hone; [|done..].
    simpl in H1, Hp. apply andb_true_iff in H1 as [Hnr _].
    apply negb_true_iff, bool_decide_eq_false in Hnr.
    destruct (IH new r w1 Hnr) as (w' & Hrun & Hpr).
    + intros n. specialize (Hall (S n)). simpl in Hall. rewrite Hone in Hall.
      destruct (after_passes n cmd dir aux w1) as [[rs1 w2]|]; [|done].
      simpl in Hall. by apply andb_true_iff in Hall as [_ ?].
    + exists w'. split; [done|]. rewrite Hpr, Hp, <- app_assoc. done.
Qed.

(** The two sentinels have different lengths. *)
Lemma sentinels_differ (s1 s2 : nat) :
  Text (uuid_chars 1 s1) ≠ Text (uuid_chars 2 s2).
Proof.
  intros [= H]. apply (f_equal String.length) in H.
  rewrite !uuid_chars_length in H. done.
Qed.

Lemma converge_unfold passes cmd dir aux w :
  converge passes cmd dir aux w =
    convergence_loop passes cmd dir aux
      (Text (uuid_chars 1 (entropy w))) (second_sentinel w) (loop_start w).
Proof. done. Qed.

(** *** What a build launches *)

Lemma is_docx_request (c : string) (cs : list string) :
  String.eqb c "latex2rtf" && Nat.eqb (length (c :: cs)) 1 = true
  ↔ c :: cs = ["latex2rtf"].
Proof.
  rewrite andb_true_iff, String.eqb_eq, Nat.eqb_eq. split.
  - intros [-> Hlen]. by destruct cs.
  - by intros [= -> ->].
Qed.

Lemma stage_A_procs passes plan w0 :
  ∃ k, (k ≤ passes)%nat
       ∧ procs (world_of (stage_A passes plan w0))
         = procs w0 ++ repeat (loop_cmd plan ++ [path_template_random (paths plan)],
                               path_template_dir (paths plan)) k.
Proof.
  unfold stage_A, bind at 1, write_file. rewrite converge_unfold.
  match goal with
  | |- context [convergence_loop ?p ?c ?d ?a ?o ?n ?w] =>
      destruct (convergence_loop_procs p c d a o n w) as (k & Hk & Hpr)
  end.
  exists k. split; [done|]. by rewrite Hpr.
Qed.

Lemma stage_A_enters passes plan w0 :
  ∃ k, procs (world_of (stage_A (S passes) plan w0))
       = procs w0 ++ (loop_cmd plan ++ [path_template_random (paths plan)],
                      path_template_dir (paths plan))
                  :: repeat (loop_cmd plan ++ [path_template_random (paths plan)],
                             path_template_dir (paths plan)) k.
Proof.
  unfold stage_A, bind at 1, write_file. rewrite converge_unfold.
  match goal with
  | |- context [convergence_loop (S ?p) ?c ?d ?a ?o ?n ?w] =>
      destruct (convergence_loop_enters p c d a o n w) as (k & Hpr);
        [apply sentinels_differ|]
  end.
  exists k. by rewrite Hpr.
Qed.

Lemma stage_docx_procs docx tmp dir w :
  procs (world_of (stage_docx docx tmp dir w))
  = procs w ++ (if truthy docx then [(default [] docx ++ [tmp], dir)] else []).
Proof.
  destruct docx as [[|c cs]|]; simpl; try by rewrite app_nil_r.
  unfold bind, check_output_cwd.
  by destruct (subprocess _ _ _ _) as [[[e|stdout] f] h].
Qed.

Lemma build_body_procs passes self plan out w0 :
  procs (world_of (build_body passes self plan out w0))
  = procs (world_of (before_move passes plan w0)).
Proof.
  unfold build_body, bind at 1.
  destruct (before_move passes plan w0) as [[] w1|e w1|w1]; [|done..].
  unfold bind.
  by destruct (shutil_move_cases (path_outfile_initial (paths plan)) out w1)
    as [(e & -> & _)|(k & c & _ & _ & ->)].
Qed.

Lemma run_latex_procs passes self cmd out w plan w0 :
  prologue self cmd out w = Returned plan w0 →
  procs (world_of (run_latex passes self cmd out w))
  = procs (world_of (before_move passes plan w0)).
Proof.
  intros Hp. rewrite <- (build_body_procs passes self plan out w0).
  destruct (build_body passes self plan out w0) as [[] w1|e w1|w1] eqn:Hb.
  - destruct (run_latex_returned _ _ _ _ _ _ _ _ Hp Hb) as (w2 & -> & _ & Hpr & _).
    done.
  - destruct (is_Exception e) eqn:He.
    + by destruct (run_latex_caught _ _ _ _ _ _ _ _ _ Hp Hb He) as (w2 & -> & _ & ? & _).
    + by destruct (run_latex_uncaught _ _ _ _ _ _ _ _ _ Hp Hb He)
        as (w2 & -> & _ & ? & _).
  - by rewrite (run_latex_running _ _ _ _ _ _ _ _ Hp Hb).
Qed.

Lemma run_latex_procs_no_plan passes self cmd out w :
  (∀ plan w0, prologue self cmd out w ≠ Returned plan w0) →
  procs (world_of (run_latex passes self cmd out w)) = procs w.
Proof.
  intros Hno. unfold run_latex, bind at 1.
  destruct (prologue self cmd out w) as [plan w0|e w0|w0] eqn:Hp.
  - by destruct (Hno plan w0).
  - destruct (render (path_jinja2 self) (template_name self) (template_kwargs self)
                (filters self) (files w)) as [e'|text] eqn:Hr.
    + rewrite (prologue_render_fails _ _ _ _ _ Hr) in Hp. by injection Hp as <- <-.
    + destruct cmd as [|c cs].
      * rewrite (prologue_empty _ _ _ _ Hr) in Hp. by injection Hp as <- <-.
      * by rewrite (prologue_nonempty _ _ _ _ _ _ Hr) in Hp.
  - destruct (render (path_jinja2 self) (template_name self) (template_kwargs self)
                (filters self) (files w)) as [e'|text] eqn:Hr.
    + by rewrite (prologue_render_fails _ _ _ _ _ Hr) in Hp.
    + destruct cmd as [|c cs].
      * by rewrite (prologue_empty _ _ _ _ Hr) in Hp.
      * by rewrite (prologue_nonempty _ _ _ _ _ _ Hr) in Hp.
Qed.

(** The plan of a request: two stages for [["latex2rtf"]], one stage for
    every other command. *)
Lemma prologue_plan self cmd out w plan w0 :
  prologue self cmd out w = Returned plan w0 →
  (cmd = ["latex2rtf"] →
     loop_cmd plan = [cmd_latex self]
     ∧ cmd_docx plan = Some ["latex2rtf"; "-o"; path_outfile_initial (paths plan)])
  ∧ (cmd ≠ ["latex2rtf"] → loop_cmd plan = cmd ∧ cmd_docx plan = None).
Proof.
  intros Hp. destruct (prologue_returned _ _ _ _ _ _ Hp) as (Hr & Hne & -> & Hps).
  destruct cmd as [|c cs]; [done|].
  rewrite (prologue_nonempty _ _ _ _ _ _ Hr) in Hp.
  destruct (String.eqb c "latex2rtf" && Nat.eqb (length (c :: cs)) 1) eqn:Hd.
  - apply is_docx_request in Hd. injection Hd as -> ->.
    injection Hp as <-. by split.
  - injection Hp as <-. split; [|done].
    intros Heq. apply is_docx_request in Heq. congruence.
Qed.

Lemma before_move_procs passes plan w0 :
  procs (world_of (before_move passes plan w0))
  = match stage_A passes plan w0 with
    | Returned _ w1 =>
        procs w1 ++
        (if truthy (cmd_docx plan)
         then [(default [] (cmd_docx plan) ++ [path_template_random (paths plan)],
                path_template_dir (paths plan))]
         else [])
    | o => procs (world_of o)
    end.
Proof.
  unfold before_move, bind at 1.
  destruct (stage_A passes plan w0) as [[] w1|e w1|w1]; [|done..].
  apply stage_docx_procs.
Qed.

(** A request that is not [["latex2rtf"]] launches nothing but its own
    command. *)
Lemma run_latex_single_stage passes self cmd out w call :
  cmd ≠ ["latex2rtf"] →
  call ∈ procs (world_of (run_latex passes self cmd out w)) →
  call ∈ procs w ∨ binary_of call = head cmd.
Proof.
  intros Hcmd Hin.
  destruct (prologue self cmd out w) as [plan w0|e w0|w0] eqn:Hp.
  - destruct (prologue_plan _ _ _ _ _ _ Hp) as [_ Hplan].
    destruct (Hplan Hcmd) as [Hloop Hdocx].
    destruct (prologue_returned _ _ _ _ _ _ Hp) as (_ & Hne & -> & _).
    rewrite (run_latex_procs _ _ _ _ _ _ _ Hp), before_move_procs in Hin.
    destruct (stage_A_procs passes plan (name_drawn w)) as (k & _ & Hpr).
    rewrite Hdocx in Hin. simpl in Hin.
    assert (Hin' : call ∈ procs (world_of (stage_A passes plan (name_drawn w)))).
    { destruct (stage_A passes plan (name_drawn w)); [|done..].
      by rewrite app_nil_r in Hin. }
    rewrite Hpr, elem_of_app in Hin'. destruct Hin' as [?|Hrep]; [by left|].
    right. apply list_elem_of_In, repeat_spec in Hrep. subst call.
    rewrite Hloop. unfold binary_of. simpl. by destruct cmd.
  - left. rewrite run_latex_procs_no_plan in Hin; [done|]. intros ??. by rewrite Hp.
  - left. rewrite run_latex_procs_no_plan in Hin; [done|]. intros ??. by rewrite Hp.
Qed.

(** ** C3: as many compiler runs as it takes the reads to repeat *)

(** C3, corrected.  Let the compiler succeed [N] times in a row from the
    start of the loop and let the read after the [N]-th run be the first
    that equals the read before it.  If the first read is not the second
    sentinel, the loop makes exactly these [N] passes and ends in the
    world they leave: [N] compiler runs, all of them the loop command in
    the temp directory, and with fewer than [N] passes allowed it is
    still running. *)
Theorem C3_exactly_N_invocations N passes cmd dir aux w rs w' :
  after_passes N cmd dir aux (loop_start w) = Some (rs, w') →
  first_repeat rs = Some N →
  head rs ≠ Some (second_sentinel w) →
  (N ≤ passes)%nat →
  converge passes cmd dir aux w = Returned tt w'
  ∧ procs w' = procs w ++ repeat (cmd, dir) N
  ∧ ∀ fewer, (fewer < N)%nat → still_running (converge fewer cmd dir aux w).
Proof.
  intros Hreads Hrep Hfirst Hle.
  destruct (after_passes_procs _ _ _ _ _ _ _ Hreads) as [_ Hpr].
  assert (Hset : settle (second_sentinel w) rs = Some N).
  { destruct rs as [|r rs1]; [done|]. simpl in *.
    rewrite decide_False; [done|]. intros Heq. apply Hfirst. by rewrite Heq. }
  split; [|split; [exact Hpr|]].
  - rewrite converge_unfold.
    apply (convergence_loop_settles N passes cmd dir aux _ _ _ rs w');
      [done|done|apply sentinels_differ|done].
  - intros fewer Hlt. rewrite converge_unfold.
    apply (convergence_loop_not_before N fewer cmd dir aux _ _ _ rs w');
      [done|done|apply sentinels_differ|done].
Qed.

(** ** C5: no bound on the number of passes *)

(** C5, corrected.  If every compiler run succeeds and every read of the
    auxiliary file differs from the value before it, the second sentinel
    before the first read, then whatever the pass budget the loop uses it
    up and is still running: it has launched the compiler once per pass
    allowed, and nothing stops it. *)
Theorem C5_loop_never_terminates passes cmd dir aux w :
  (∀ n, match after_passes n cmd dir aux (loop_start w) with
        | Some (rs, _) => all_fresh (second_sentinel w) rs = true
        | None => False
        end) →
  ∃ w', converge passes cmd dir aux w = Running w'
        ∧ procs w' = procs w ++ repeat (cmd, dir) passes.
Proof.
  intros Hall. rewrite converge_unfold.
  destruct (convergence_loop_restless passes cmd dir aux
              (Text (uuid_chars 1 (entropy w))) (second_sentinel w) (loop_start w))
    as (w' & Hrun & Hpr); [apply sentinels_differ | done | by exists w'].
Qed.

(** ** C6: the sentinels *)

(** C6.  The two sentinels drawn at line 115 are different, so the test
    of the [while] holds when the loop is reached: the loop does not end
    without a pass, and a build that may make a pass launches the
    compiler at least once. *)
Theorem C6_sentinels_force_first_pass passes self plan out cmd dir aux w :
  (∃ old_aux new_aux w1 w2,
     random_str_uuid 1 w = Returned old_aux w1
     ∧ random_str_uuid 2 w1 = Returned new_aux w2
     ∧ old_aux ≠ new_aux)
  ∧ still_running (converge 0 cmd dir aux w)
  ∧ (∃ k, procs (world_of (converge (S passes) cmd dir aux w))
          = procs w ++ (cmd, dir) :: repeat (cmd, dir) k)
  ∧ (∃ calls, procs (world_of (build_body (S passes) self plan out w))
          = procs w ++ (loop_cmd plan ++ [path_template_random (paths plan)],
                        path_template_dir (paths plan)) :: calls).
Proof.
  split; [|split; [|split]].
  - eexists _, _, _, _. split; [done|]. split; [done|]. apply sentinels_differ.
  - rewrite converge_unfold. simpl.
    by rewrite decide_True by apply sentinels_differ.
  - rewrite converge_unfold.
    destruct (convergence_loop_enters passes cmd dir aux
                (Text (uuid_chars 1 (entropy w))) (second_sentinel w) (loop_start w))
      as (k & Hpr); [apply sentinels_differ|].
    by exists k.
  - rewrite build_body_procs, before_move_procs.
    destruct (stage_A_enters passes plan w) as (k & Hpr).
    destruct (stage_A (S passes) plan w) as [[] w1|e w1|w1]; simpl in Hpr.
    + eexists. rewrite Hpr, <- app_assoc. done.
    + by eexists.
    + by eexists.
Qed.

(** ** C4: the two stages of a DOCX build *)

(** C4, corrected.  The request [["latex2rtf"]], and no other, gets a
    second stage: its loop runs the primary compiler [cmd_latex] alone,
    and once the loop has ended normally the command [latex2rtf -o] with
    the initial output path and the temporary source is launched once,
    last.  Every other request runs its own command in the loop and
    nothing after it.  A PDF build launches only the primary compiler
    [cmd_latex] and an HTML build only [htlatex]; neither launches
    [latex2rtf] unless it is itself configured as the primary compiler. *)
Theorem C4_docx_two_stages passes self out w :
  (∀ cmd plan w0,
     prologue self cmd out w = Returned plan w0 →
     let ps := paths plan in
     let call_A := (loop_cmd plan ++ [path_template_random ps], path_template_dir ps) in
     let call_B := (["latex2rtf"; "-o"; path_outfile_initial ps; path_template_random ps],
                    path_template_dir ps) in
     (cmd = ["latex2rtf"] ↔ cmd_docx plan ≠ None)
     ∧ (cmd = ["latex2rtf"] → loop_cmd plan = [cmd_latex self])
     ∧ (cmd ≠ ["latex2rtf"] → loop_cmd plan = cmd)
     ∧ (∀ w1, stage_A passes plan w0 = Returned tt w1 →
          (∃ k, procs w1 = procs w ++ call_A :: repeat call_A k)
          ∧ procs (world_of (run_latex passes self cmd out w))
            = procs w1 ++ (if decide (cmd = ["latex2rtf"]) then [call_B] else []))
     ∧ ((∀ w1, stage_A passes plan w0 ≠ Returned tt w1) →
          ∃ k, procs (world_of (run_latex passes self cmd out w))
               = procs w ++ repeat call_A k))
  ∧ (∀ call, call ∈ procs (world_of (build_pdf passes self out w)) →
       call ∈ procs w ∨ binary_of call = Some (cmd_latex self))
  ∧ (∀ call, call ∈ procs (world_of (build_html passes self out w)) →
       call ∈ procs w ∨ binary_of call = Some "htlatex").
Proof.
  split; [|split].
  - intros cmd plan w0 Hp ps call_A call_B.
    destruct (prologue_plan _ _ _ _ _ _ Hp) as [Hdocx Hother].
    destruct (prologue_returned _ _ _ _ _ _ Hp) as (_ & _ & Hw0 & _).
    split; [|split; [|split; [|split]]].
    + destruct (decide (cmd = ["latex2rtf"])) as [Heq|Hne].
      * destruct (Hdocx Heq) as [_ ->]. done.
      * destruct (Hother Hne) as [_ ->]. done.
    + intros Heq. by destruct (Hdocx Heq).
    + intros Hne. by destruct (Hother Hne).
    + intros w1 HA. split.
      * destruct passes as [|passes'].
        -- unfold stage_A, bind, write_file in HA. rewrite converge_unfold in HA.
           simpl in HA. by rewrite decide_True in HA by apply sentinels_differ.
        -- destruct (stage_A_enters passes' plan w0) as (k & Hpr).
           rewrite HA in Hpr. simpl in Hpr. exists k. rewrite Hpr, Hw0. done.
      * rewrite (run_latex_procs _ _ _ _ _ _ _ Hp), before_move_procs, HA.
        f_equal. case_decide as Hd.
        -- destruct (Hdocx Hd) as [_ ->]. done.
        -- destruct (Hother Hd) as [_ ->]. done.
    + intros Hno. destruct (stage_A_procs passes plan w0) as (k & _ & Hpr).
      exists k. rewrite (run_latex_procs _ _ _ _ _ _ _ Hp), before_move_procs.
      destruct (stage_A passes plan w0) as [[] w1|e w1|w1] eqn:HA.
      * by destruct (Hno w1).
      * rewrite Hpr, Hw0. done.
      * rewrite Hpr, Hw0. done.
  - intros call. unfold build_pdf, bind, has_file_extension.
    case_decide; [|by left].
    intros Hin. by apply run_latex_single_stage in Hin.
  - intros call. unfold build_html, bind, has_file_extension.
    case_decide; [|by left].
    intros Hin. by apply run_latex_single_stage in Hin.
Qed.

(** ** C8: the output is moved to the requested path *)

(** *** The driver creates and removes no directory *)

Lemma one_pass_dirs cmd dir aux w :
  dirs (world_of (one_pass cmd dir aux w)) = dirs w.
Proof.
  unfold one_pass, bind, check_output_cwd.
  destruct (subprocess _ _ _ _) as [[[e|stdout] f] h]; [done|].
  simpl. unfold read_file. simpl. by destruct (file_text _ _).
Qed.

Lemma convergence_loop_dirs passes cmd dir aux old new w :
  dirs (world_of (convergence_loop passes cmd dir aux old new w)) = dirs w.
Proof.
  revert old new w. induction passes as [|passes IH]; intros old new w; simpl.
  - by case_decide.
  - case_decide; [|done]. unfold bind.
    pose proof (one_pass_dirs cmd dir aux w) as H1.
    destruct (one_pass cmd dir aux w) as [r w1|e w1|w1]; simpl in H1; [|done..].
    by rewrite IH.
Qed.

Lemma stage_docx_dirs docx dir tmp w :
  dirs (world_of (stage_docx docx tmp dir w)) = dirs w.
Proof.
  destruct docx as [[|c cs]|]; simpl; [done| |done].
  unfold bind, check_output_cwd.
  by destruct (subprocess _ _ _ _) as [[[e|stdout] f] h].
Qed.

Lemma before_move_dirs passes plan w0 :
  dirs (world_of (before_move passes plan w0)) = dirs w0.
Proof.
  assert (HA : dirs (world_of (stage_A passes plan w0)) = dirs w0).
  { unfold stage_A, bind at 1, write_file. rewrite converge_unfold.
    by rewrite convergence_loop_dirs. }
  unfold before_move, bind at 1.
  destruct (stage_A passes plan w0) as [[] w1|e w1|w1]; [|done..].
  simpl in HA. by rewrite stage_docx_dirs.
Qed.

(** Whether a path names a directory depends on the directories only. *)
Lemma os_path_isdir_dirs w w' path :
  dirs w' = dirs w → os_path_isdir w' path = os_path_isdir w path.
Proof. intros H. unfold os_path_isdir, is_directory. by rewrite H. Qed.

(** *** The move *)

(** C8, corrected.  In a build whose [try] suite succeeds, the file
    found at the temp-source stem followed by the extension of the
    requested path is taken away from there by [shutil.move].  When the
    requested path is not an existing directory and is not one of the
    files that the cleanup lists, the file is then at the requested path
    and every other file is as the compiler left it; it is still at the
    requested path, and not at the initial one, when [run_latex]
    returns the rendered text. *)
Theorem C8_output_moved passes self cmd out w plan w0 w1 :
  prologue self cmd out w = Returned plan w0 →
  build_body passes self plan out w0 = Returned tt w1 →
  os_path_isdir w out = false →
  is_run_file (path_template_dir (paths plan))
              (path_template_random_no_ext (paths plan))
              (posixpath.canon out) = false →
  let ps := paths plan in
  let initial := posixpath.canon (path_outfile_initial ps) in
  path_outfile_initial ps
    = (posixpath.splitext (path_template_random ps)).1
      +:+ (posixpath.splitext out).2
  ∧ ∃ wp content,
      before_move passes plan w0 = Returned tt wp
      ∧ files wp !! initial = Some content
      ∧ files w1 = <[posixpath.canon out := content]> (delete initial (files wp))
      ∧ files w1 !! posixpath.canon out = Some content
      ∧ (initial ≠ posixpath.canon out → files w1 !! initial = None)
      ∧ ∃ w2, run_latex passes self cmd out w = Returned (text_template plan) w2
              ∧ files w2 !! posixpath.canon out = Some content
              ∧ (initial ≠ posixpath.canon out → files w2 !! initial = None).
Proof.
  intros Hp Hb Hdir Hrf ps initial. split.
  { destruct (prologue_returned _ _ _ _ _ _ Hp) as (_ & _ & _ & Hps).
    unfold ps. by rewrite Hps. }
  destruct (prologue_returned _ _ _ _ _ _ Hp) as (_ & _ & -> & _).
  pose proof Hb as Hb'. unfold build_body, bind at 1 in Hb'.
  pose proof (before_move_dirs passes plan (name_drawn w)) as Hd.
  destruct (before_move passes plan (name_drawn w)) as [[] wp|e wp|wp]; [|done..].
  simpl in Hd. fold ps in Hb'. unfold bind in Hb'.
  destruct (shutil_move_cases (path_outfile_initial ps) out wp)
    as [(e & Hm & _)|(k & content & Hk & Hc & Hm)]; rewrite Hm in Hb'; [done|].
  unfold real_dst in Hb'.
  rewrite (os_path_isdir_dirs w wp out Hd), Hdir in Hb'.
  assert (k = initial) as ->.
  { unfold locate in Hk. destruct (String.eqb _ _); [done|]. by injection Hk. }
  unfold LOGGER_info, emit in Hb'. injection Hb' as <-. simpl.
  exists wp, content. split; [done|]. split; [done|]. split; [done|].
  split; [apply lookup_insert_eq|]. split.
  { intros Hne. rewrite lookup_insert_ne by done. apply lookup_delete_eq. }
  destruct (run_latex_returned _ _ _ _ _ _ _ _ Hp Hb) as (w2 & Hr & Hcl & _).
  exists w2. split; [done|]. rewrite !Hcl. fold ps in Hrf |- *. rewrite Hrf. simpl.
  split; [apply lookup_insert_eq|]. intros Hne.
  destruct (is_run_file _ _ initial); [done|].
  rewrite lookup_insert_ne by done. apply lookup_delete_eq.
Qed.

End Properties.

(** * The properties on the mock toolchain *)

Section MockRuns.

(** One pass of the mock compiler reads back what its script says. *)
Lemma mock_one_pass script w text :
  script (outside w) = Some text →
  ∃ w', one_pass (C := Mock.toolchain script) Mock.cmd Mock.dir Mock.aux w
        = Returned (Text text) w'
        ∧ outside w' = S (outside w).
Proof.
  intros Hs. unfold one_pass, bind, check_output_cwd.
  cbn [subprocess Mock.toolchain]. unfold Mock.subprocess. cbn [Mock.cmd]. rewrite Hs.
  unfold LOGGER_debug, emit, read_file. cbn [files outside file_text Mock.toolchain].
  unfold Mock.file_text.
  change ((posixpath.splitext (List.last ["pdflatex"; "tpl/doc00000.tex"] "")).1
          +:+ ".aux") with Mock.aux.
  rewrite lookup_insert_eq. eexists. split; reflexivity.
Qed.

Lemma mock_after_passes script (f : nat → string) n w :
  (∀ k, script k = Some (f k)) →
  ∃ w', after_passes (C := Mock.toolchain script) n Mock.cmd Mock.dir Mock.aux w
        = Some (map (fun k => Text (f k)) (seq (outside w) n), w').
Proof.
  intros Hs. revert w. induction n as [|n IH]; intros w.
  - by exists w.
  - destruct (mock_one_pass script w (f (outside w)) (Hs _)) as (w1 & H1 & Ho).
    destruct (IH w1) as (w2 & H2). exists w2.
    cbn [after_passes]. rewrite H1, H2, Ho. done.
Qed.

Lemma all_fresh_seq (f : nat → string) h n :
  (∀ k, (h ≤ k)%nat → f k ≠ f (S k)) →
  all_fresh (Text (f h)) (map (fun k => Text (f k)) (seq (S h) n)) = true.
Proof.
  revert h. induction n as [|n IH]; intros h Hf; [done|].
  cbn [seq map all_fresh]. rewrite IH by (intros k Hk; apply Hf; lia).
  rewrite bool_decide_eq_false_2; [done|]. intros [= Heq]. by apply (Hf h).
Qed.

Lemma chars_length c n : String.length (Mock.chars c n) = n.
Proof. induction n as [|n IH]; [done|]. simpl. by rewrite IH. Qed.

Lemma chars_fresh c k : Mock.chars c k ≠ Mock.chars c (S k).
Proof.
  intros H. apply (f_equal String.length) in H. rewrite !chars_length in H. lia.
Qed.

(** *** C1 on a compiler that fails on its second run *)

(** The compiler exits with status 1 on the second pass; the suite of the
    [try] raises [CalledProcessError], and [run_latex] returns the text:
    its outcome is not a failure report. *)
Lemma C1_failure_is_not_reported :
  ∃ plan w0 w1 w2,
    prologue (C := Mock.toolchain Mock.failing) Mock.job ["pdflatex"] "out/doc.pdf"
             Mock.world0 = Returned plan w0
    ∧ build_body (C := Mock.toolchain Mock.failing) 10 Mock.job plan "out/doc.pdf" w0
      = Raised (CalledProcessError 1) w1
    ∧ run_latex (C := Mock.toolchain Mock.failing) 10 Mock.job ["pdflatex"]
                "out/doc.pdf" Mock.world0
      = Returned "\documentclass{article}" w2
    ∧ ¬ reported_failed
          (run_latex (C := Mock.toolchain Mock.failing) 10 Mock.job ["pdflatex"]
                     "out/doc.pdf" Mock.world0).
Proof.
  eexists _, _, _, _.
  split; [vm_compute; reflexivity|].
  split; [vm_compute; reflexivity|].
  split; [vm_compute; reflexivity|].
  vm_compute. intros H. exact H.
Qed.

Lemma C1_witness :
  ∃ plan w0 w1,
    prologue (C := Mock.toolchain Mock.failing) Mock.job ["pdflatex"] "out/doc.pdf"
             Mock.world0 = Returned plan w0
    ∧ build_body (C := Mock.toolchain Mock.failing) 10 Mock.job plan "out/doc.pdf" w0
      = Raised (CalledProcessError 1) w1
    ∧ is_Exception (CalledProcessError 1) = true
    ∧ ∃ w2, run_latex (C := Mock.toolchain Mock.failing) 10 Mock.job ["pdflatex"]
                      "out/doc.pdf" Mock.world0
            = Returned (text_template plan) w2
            ∧ log w2 = log w1 ++ [mkLog ERROR "Failed during latex build"
                                         (Some (CalledProcessError 1))]
            ∧ cleaned (path_template_dir (paths plan))
                      (path_template_random_no_ext (paths plan)) w1 w2
            ∧ ¬ reported_failed
                  (run_latex (C := Mock.toolchain Mock.failing) 10 Mock.job
                             ["pdflatex"] "out/doc.pdf" Mock.world0).
Proof.
  eexists _, _, _.
  split; [vm_compute; reflexivity|].
  split; [vm_compute; reflexivity|].
  split; [reflexivity|].
  eapply (C1_failure_logged_cleaned_text_returned (C := Mock.toolchain Mock.failing)).
  - vm_compute; reflexivity.
  - vm_compute; reflexivity.
  - reflexivity.
Defined.

(** *** C2 on a template tree named with a doubled slash *)

(** C2, at a failing input.  The template tree is given as [/srv/tpl//].
    Line 93 takes the directory of the temporary source with [dirname],
    which drops the slashes at the end, and line 94 takes the stem with
    [splitext], which keeps them: every path that the listing makes from
    the directory starts with [/srv/tpl/doc] and none starts with the
    stem [/srv/tpl//doc00000].  The cleanup deletes nothing: after a
    build that succeeds, and after one that fails, the temporary source,
    the auxiliary file and the log are still in the directory of the
    template, under names that start with the stem's name [doc00000]. *)
Theorem C2_run_files_remain :
  (∃ plan w0,
     prologue (C := Mock.toolchain Mock.steady) Scenario.job_slashes
              ["pdflatex"; "-interaction"; "nonstopmode"] "/srv/out/doc.pdf"
              Scenario.slashes_world = Returned plan w0
     ∧ path_template_dir (paths plan) = "/srv/tpl"
     ∧ path_template_random_no_ext (paths plan) = "/srv/tpl//doc00000")
  ∧ (∃ w2,
       build_pdf (C := Mock.toolchain Mock.steady) 10 Scenario.job_slashes
                 "/srv/out/doc.pdf" Scenario.slashes_world
       = Returned "\documentclass{article}" w2
       ∧ last (log w2) = Some (built_record Scenario.job_slashes "/srv/out/doc.pdf")
       ∧ map_to_list (files w2)
         = [("/srv/out/doc.pdf", "typeset");
            ("/srv/tpl/doc.tex", "\documentclass{article}");
            ("/srv/tpl/doc00000.aux", "\relax");
            ("/srv/tpl/doc00000.log", "ok");
            ("/srv/tpl/doc00000.tex", "\documentclass{article}")]
       ∧ os_path_isfile w2 "/srv/tpl//doc00000.tex" = true)
  ∧ (∃ w2,
       build_pdf (C := Mock.toolchain Mock.failing) 10 Scenario.job_slashes
                 "/srv/out/doc.pdf" Scenario.slashes_world
       = Returned "\documentclass{article}" w2
       ∧ last (log w2) = Some (failed_record (CalledProcessError 1))
       ∧ map_to_list (files w2)
         = [("/srv/tpl/doc.tex", "\documentclass{article}");
            ("/srv/tpl/doc00000.aux", "\relax");
            ("/srv/tpl/doc00000.log", "error");
            ("/srv/tpl/doc00000.tex", "\documentclass{article}");
            ("/srv/tpl/doc00000.pdf", "typeset")]
       ∧ os_path_isfile w2 "/srv/tpl//doc00000.tex" = true).
Proof.
  split; [|split].
  - eexists _, _. split; [vm_compute; reflexivity|]. split; reflexivity.
  - eexists. split; [vm_compute; reflexivity|].
    split; [vm_compute; reflexivity|]. split; vm_compute; reflexivity.
  - eexists. split; [vm_compute; reflexivity|].
    split; [vm_compute; reflexivity|]. split; vm_compute; reflexivity.
Qed.

(** With the same tree named [/srv/tpl], the same build leaves the
    template and the output. *)
Example plain_name_is_cleaned :
  ∃ w2,
    build_pdf (C := Mock.toolchain Mock.steady) 10
              (LatexBuild_init "/srv/tpl" "doc.tex" None None "pdflatex")
              "/srv/out/doc.pdf" Scenario.slashes_world
    = Returned "\documentclass{article}" w2
    ∧ map_to_list (files w2)
      = [("/srv/out/doc.pdf", "typeset");
         ("/srv/tpl/doc.tex", "\documentclass{article}")].
Proof. eexists. split; vm_compute; reflexivity. Qed.

(** *** C7 on three mismatched requests *)

Lemma C7_witness :
  ((posixpath.splitext "out/doc.docx").2 ≠ ".pdf"
   ∧ build_pdf (C := Mock.toolchain Mock.steady) 10 Mock.job "out/doc.docx" Mock.world0
     = Raised ValueError Mock.world0)
  ∧ ((posixpath.splitext "out/doc.pdf").2 ≠ ".html"
     ∧ build_html (C := Mock.toolchain Mock.steady) 10 Mock.job "out/doc.pdf"
                  Mock.world0
       = Raised ValueError Mock.world0)
  ∧ ((posixpath.splitext "out/doc.pdf").2 ≠ ".docx"
     ∧ build_docx (C := Mock.toolchain Mock.steady) 10 Mock.job "out/doc.pdf"
                  Mock.world0
       = Raised ValueError Mock.world0).
Proof.
  split; [|split].
  - split; [discriminate|].
    apply (C7_extension_mismatch_fails_first (C := Mock.toolchain Mock.steady)
             10 Mock.job "out/doc.docx" Mock.world0). discriminate.
  - split; [discriminate|].
    apply (C7_extension_mismatch_fails_first (C := Mock.toolchain Mock.steady)
             10 Mock.job "out/doc.pdf" Mock.world0). discriminate.
  - split; [discriminate|].
    apply (C7_extension_mismatch_fails_first (C := Mock.toolchain Mock.steady)
             10 Mock.job "out/doc.pdf" Mock.world0). discriminate.
Defined.

(** *** C9 on an empty command and on a failing compiler *)

(** The template renders, the command is empty, and [run_latex] raises. *)
Lemma C9_empty_command_raises :
  @render (Mock.toolchain Mock.steady)
         (path_jinja2 Mock.job) (template_name Mock.job) (template_kwargs Mock.job)
         (filters Mock.job) (files Mock.world0)
  = inr "\documentclass{article}"
  ∧ run_latex (C := Mock.toolchain Mock.steady) 10 Mock.job [] "out/doc.pdf" Mock.world0
    = Raised IndexError (name_drawn Mock.world0)
  ∧ reported_failed
      (run_latex (C := Mock.toolchain Mock.steady) 10 Mock.job [] "out/doc.pdf"
                 Mock.world0).
Proof. split; [|split]; vm_compute; done. Qed.

Lemma C9_witness :
  ∃ plan w0,
    prologue (C := Mock.toolchain Mock.failing) Mock.job ["pdflatex"] "out/doc.pdf"
             Mock.world0 = Returned plan w0
    ∧ ¬ still_running
          (build_body (C := Mock.toolchain Mock.failing) 10 Mock.job plan
                      "out/doc.pdf" w0)
    ∧ (∀ e w1, build_body (C := Mock.toolchain Mock.failing) 10 Mock.job plan
                          "out/doc.pdf" w0 = Raised e w1 →
               is_Exception e = true)
    ∧ @render (Mock.toolchain Mock.failing)
              (path_jinja2 Mock.job) (template_name Mock.job)
              (template_kwargs Mock.job) (filters Mock.job) (files Mock.world0)
      = inr (text_template plan)
    ∧ ∃ w2, run_latex (C := Mock.toolchain Mock.failing) 10 Mock.job ["pdflatex"]
                      "out/doc.pdf" Mock.world0
            = Returned (text_template plan) w2.
Proof.
  eexists _, _.
  split; [vm_compute; reflexivity|].
  split; [vm_compute; intros H; exact H|].
  split.
  { intros e w1 H. vm_compute in H. injection H as <- _. reflexivity. }
  eapply (C9_text_returned_when_body_ends (C := Mock.toolchain Mock.failing)
            10 Mock.job ["pdflatex"] "out/doc.pdf" Mock.world0).
  - vm_compute; reflexivity.
  - vm_compute; intros H; exact H.
  - intros e w1 H. vm_compute in H. injection H as <- _. reflexivity.
Defined.

(** *** C3 on a compiler that settles, with and without a collision *)

(** The first auxiliary file is the second sentinel.  The fifth read is
    the first to equal the read before it, and the content is final from
    the fourth run on; the loop ends after one compiler run. *)
Lemma C3_sentinel_collision_ends_loop_early :
  ∃ rs w' w'',
    after_passes (C := Mock.toolchain Mock.settling_after_collision) 5
                 Mock.cmd Mock.dir Mock.aux (loop_start Mock.world0) = Some (rs, w')
    ∧ rs = [Text "11"; Text "labels 1"; Text "labels 2";
            Text "labels done"; Text "labels done"]
    ∧ first_repeat rs = Some 5
    ∧ converge (C := Mock.toolchain Mock.settling_after_collision) 10
               Mock.cmd Mock.dir Mock.aux Mock.world0 = Returned tt w''
    ∧ procs w'' = [(Mock.cmd, Mock.dir)].
Proof.
  eexists _, _, _.
  split; [vm_compute; reflexivity|].
  split; [reflexivity|].
  split; [reflexivity|].
  split; [vm_compute; reflexivity|].
  reflexivity.
Qed.

Lemma C3_witness :
  ∃ rs w',
    after_passes (C := Mock.toolchain Mock.settling) 5
                 Mock.cmd Mock.dir Mock.aux (loop_start Mock.world0) = Some (rs, w')
    ∧ first_repeat rs = Some 5
    ∧ head rs ≠ Some (second_sentinel (C := Mock.toolchain Mock.settling) Mock.world0)
    ∧ (5 ≤ 10)%nat
    ∧ converge (C := Mock.toolchain Mock.settling) 10
               Mock.cmd Mock.dir Mock.aux Mock.world0 = Returned tt w'
    ∧ procs w' = procs Mock.world0 ++ repeat (Mock.cmd, Mock.dir) 5
    ∧ ∀ fewer, (fewer < 5)%nat →
               still_running (converge (C := Mock.toolchain Mock.settling) fewer
                                       Mock.cmd Mock.dir Mock.aux Mock.world0).
Proof.
  eexists _, _.
  split; [vm_compute; reflexivity|].
  split; [reflexivity|].
  split; [discriminate|].
  split; [lia|].
  eapply (C3_exactly_N_invocations (C := Mock.toolchain Mock.settling)).
  - vm_compute; reflexivity.
  - reflexivity.
  - discriminate.
  - lia.
Defined.

(** *** C5 on a compiler that never settles, with and without a collision *)

Lemma restless_never_settles n :
  match after_passes (C := Mock.toolchain Mock.restless) n
                     Mock.cmd Mock.dir Mock.aux (loop_start Mock.world0) with
  | Some (rs, _) =>
      all_fresh (second_sentinel (C := Mock.toolchain Mock.restless) Mock.world0) rs
      = true
  | None => False
  end.
Proof.
  destruct (mock_after_passes Mock.restless (Mock.chars "x") n
              (loop_start Mock.world0)) as (w' & ->); [done|].
  destruct n as [|n]; [done|].
  cbn [loop_start outside Mock.world0 seq map all_fresh].
  rewrite (all_fresh_seq (Mock.chars "x") 0 n) by (intros; apply chars_fresh).
  done.
Defined.

(** Every read differs from the read before it, the first read is the
    second sentinel, and the loop ends after one compiler run. *)
Lemma C5_sentinel_collision_ends_loop :
  (∀ n, match after_passes (C := Mock.toolchain Mock.restless_after_collision) n
                           Mock.cmd Mock.dir Mock.aux (loop_start Mock.world0) with
        | Some (rs, _) => reads_differ rs = true
        | None => False
        end)
  ∧ ∃ w', converge (C := Mock.toolchain Mock.restless_after_collision) 10
                   Mock.cmd Mock.dir Mock.aux Mock.world0 = Returned tt w'
          ∧ procs w' = [(Mock.cmd, Mock.dir)].
Proof.
  split.
  - intros n.
    destruct (mock_after_passes Mock.restless_after_collision
                (fun k => if Nat.eqb k 0 then Mock.uuid_chars 2 1 else Mock.chars "x" k)
                n (loop_start Mock.world0)) as (w' & ->).
    { intros k. unfold Mock.restless_after_collision, Mock.restless.
      by destruct (Nat.eqb k 0). }
    destruct n as [|n]; [done|].
    cbn [loop_start outside Mock.world0 seq map reads_differ].
    apply (all_fresh_seq
             (fun k => if Nat.eqb k 0 then Mock.uuid_chars 2 1 else Mock.chars "x" k)
             0 n).
    intros [|k] _; [done|]. apply chars_fresh.
  - eexists. split; [vm_compute; reflexivity|]. reflexivity.
Qed.

Lemma C5_witness :
  (∀ n, match after_passes (C := Mock.toolchain Mock.restless) n
                           Mock.cmd Mock.dir Mock.aux (loop_start Mock.world0) with
        | Some (rs, _) =>
            all_fresh (second_sentinel (C := Mock.toolchain Mock.restless) Mock.world0)
                      rs = true
        | None => False
        end)
  ∧ ∃ w', converge (C := Mock.toolchain Mock.restless) 7
                   Mock.cmd Mock.dir Mock.aux Mock.world0 = Running w'
          ∧ procs w' = procs Mock.world0 ++ repeat (Mock.cmd, Mock.dir) 7.
Proof.
  split; [exact restless_never_settles|].
  exact (C5_loop_never_terminates (C := Mock.toolchain Mock.restless) 7
           Mock.cmd Mock.dir Mock.aux Mock.world0 restless_never_settles).
Defined.

(** *** C4 on a DOCX build, and on a PDF build with [latex2rtf] as primary compiler *)

(** A PDF build of a job whose primary compiler is configured to be
    [latex2rtf] launches [latex2rtf], twice. *)
Lemma C4_pdf_build_can_launch_latex2rtf :
  procs (world_of (build_pdf (C := Mock.toolchain Mock.steady) 10 Mock.job_rtf
                             "out/doc.pdf" Mock.world0))
  = [(["latex2rtf"; "-interaction"; "nonstopmode"; "tpl/doc00000.tex"], "tpl");
     (["latex2rtf"; "-interaction"; "nonstopmode"; "tpl/doc00000.tex"], "tpl")]
  ∧ Forall (fun call => binary_of call = Some "latex2rtf")
           (procs (world_of (build_pdf (C := Mock.toolchain Mock.steady) 10
                                       Mock.job_rtf "out/doc.pdf" Mock.world0))).
Proof.
  split; [vm_compute; reflexivity|].
  vm_compute. repeat constructor.
Qed.

Lemma C4_witness :
  ∃ plan w0 w1,
    prologue (C := Mock.toolchain Mock.steady) Mock.job ["latex2rtf"] "out/doc.docx"
             Mock.world0 = Returned plan w0
    ∧ stage_A (C := Mock.toolchain Mock.steady) 10 plan w0 = Returned tt w1
    ∧ loop_cmd plan = ["pdflatex"]
    ∧ procs w1 = [(["pdflatex"; "tpl/doc00000.tex"], "tpl");
                  (["pdflatex"; "tpl/doc00000.tex"], "tpl")]
    ∧ procs (world_of (run_latex (C := Mock.toolchain Mock.steady) 10 Mock.job
                                 ["latex2rtf"] "out/doc.docx" Mock.world0))
      = procs w1
        ++ [(["latex2rtf"; "-o"; "tpl/doc00000.docx"; "tpl/doc00000.tex"], "tpl")].
Proof.
  eexists _, _, _.
  split; [vm_compute; reflexivity|].
  split; [vm_compute; reflexivity|].
  split; [reflexivity|].
  split; [reflexivity|].
  pose proof (C4_docx_two_stages (C := Mock.toolchain Mock.steady) 10 Mock.job
                "out/doc.docx" Mock.world0) as [Hplan _].
  edestruct (Hplan ["latex2rtf"]) as (_ & _ & _ & Hconv & _);
    [vm_compute; reflexivity|].
  edestruct Hconv as [_ Heq]; [vm_compute; reflexivity|].
  exact Heq.
Defined.

(** *** C8 on three successful PDF builds *)

(** Two builds that succeed and leave nothing at the requested path.
    The first is asked for an output in the directory of the template,
    under a name that starts with the name of the temporary source: the
    move puts the artifact there, the build is logged as built, and the
    cleanup deletes the artifact with the files of the run.  The second
    is asked for an output path that names a directory: the move puts
    the artifact into the directory, under the name of the initial
    output. *)
Lemma C8_artifact_is_not_at_the_requested_path :
  (∃ plan w0 w1 w2,
     prologue (C := Mock.toolchain Mock.steady) Mock.job ["pdflatex"]
              "tpl/doc00000final.pdf" Mock.world0 = Returned plan w0
     ∧ build_body (C := Mock.toolchain Mock.steady) 10 Mock.job plan
                  "tpl/doc00000final.pdf" w0 = Returned tt w1
     ∧ last (log w1) = Some (built_record Mock.job "tpl/doc00000final.pdf")
     ∧ run_latex (C := Mock.toolchain Mock.steady) 10 Mock.job ["pdflatex"]
                 "tpl/doc00000final.pdf" Mock.world0
       = Returned "\documentclass{article}" w2
     ∧ last (log w2) = Some (built_record Mock.job "tpl/doc00000final.pdf")
     ∧ os_path_exists w2 "tpl/doc00000final.pdf" = false)
  ∧ (∃ plan w0 w1 w2,
       prologue (C := Mock.toolchain Mock.steady) Mock.job ["pdflatex"]
                "out/doc.pdf" Scenario.shadowed_world = Returned plan w0
       ∧ build_body (C := Mock.toolchain Mock.steady) 10 Mock.job plan
                    "out/doc.pdf" w0 = Returned tt w1
       ∧ run_latex (C := Mock.toolchain Mock.steady) 10 Mock.job ["pdflatex"]
                   "out/doc.pdf" Scenario.shadowed_world
         = Returned "\documentclass{article}" w2
       ∧ last (log w2) = Some (built_record Mock.job "out/doc.pdf")
       ∧ os_path_isfile w2 "out/doc.pdf" = false
       ∧ files w2 !! "out/doc.pdf/doc00000.pdf" = Some "typeset").
Proof.
  split.
  - eexists _, _, _, _.
    split; [vm_compute; reflexivity|].
    split; [vm_compute; reflexivity|].
    split; [vm_compute; reflexivity|].
    split; [vm_compute; reflexivity|].
    split; vm_compute; reflexivity.
  - eexists _, _, _, _.
    split; [vm_compute; reflexivity|].
    split; [vm_compute; reflexivity|].
    split; [vm_compute; reflexivity|].
    split; [vm_compute; reflexivity|].
    split; vm_compute; reflexivity.
Qed.

Lemma C8_witness :
  ∃ plan w0 w1,
    prologue (C := Mock.toolchain Mock.steady) Mock.job ["pdflatex"] "out/doc.pdf"
             Mock.world0 = Returned plan w0
    ∧ build_body (C := Mock.toolchain Mock.steady) 10 Mock.job plan "out/doc.pdf" w0
      = Returned tt w1
    ∧ os_path_isdir Mock.world0 "out/doc.pdf" = false
    ∧ is_run_file (path_template_dir (paths plan))
                  (path_template_random_no_ext (paths plan))
                  (posixpath.canon "out/doc.pdf") = false
    ∧ path_outfile_initial (paths plan) = "tpl/doc00000.pdf"
    ∧ files w1 !! "out/doc.pdf" = Some "typeset"
    ∧ files w1 !! "tpl/doc00000.pdf" = None
    ∧ path_outfile_initial (paths plan)
      = (posixpath.splitext (path_template_random (paths plan))).1
        +:+ (posixpath.splitext "out/doc.pdf").2
    ∧ ∃ wp content,
        before_move (C := Mock.toolchain Mock.steady) 10 plan w0 = Returned tt wp
        ∧ files wp !! posixpath.canon (path_outfile_initial (paths plan)) = Some content
        ∧ files w1 = <[posixpath.canon "out/doc.pdf" := content]>
                       (delete (posixpath.canon (path_outfile_initial (paths plan)))
                               (files wp))
        ∧ files w1 !! posixpath.canon "out/doc.pdf" = Some content
        ∧ (posixpath.canon (path_outfile_initial (paths plan))
           ≠ posixpath.canon "out/doc.pdf" →
           files w1 !! posixpath.canon (path_outfile_initial (paths plan)) = None)
        ∧ ∃ w2, run_latex (C := Mock.toolchain Mock.steady) 10 Mock.job ["pdflatex"]
                          "out/doc.pdf" Mock.world0
                = Returned (text_template plan) w2
                ∧ files w2 !! posixpath.canon "out/doc.pdf" = Some content
                ∧ (posixpath.canon (path_outfile_initial (paths plan))
                   ≠ posixpath.canon "out/doc.pdf" →
                   files w2 !! posixpath.canon (path_outfile_initial (paths plan))
                   = None).
Proof.
  eexists _, _, _.
  split; [vm_compute; reflexivity|].
  split; [vm_compute; reflexivity|].
  split; [vm_compute; reflexivity|].
  split; [vm_compute; reflexivity|].
  split; [reflexivity|].
  split; [vm_compute; reflexivity|].
  split; [vm_compute; reflexivity|].
  apply (C8_output_moved (C := Mock.toolchain Mock.steady) 10 Mock.job ["pdflatex"]
           "out/doc.pdf" Mock.world0 _ _ _).
  - vm_compute; reflexivity.
  - vm_compute; reflexivity.
  - vm_compute; reflexivity.
  - vm_compute; reflexivity.
Defined.

(** *** Runs of the whole driver *)

(** A successful PDF build: two compiler runs, the output at the requested
    path, the template untouched and nothing else left. *)
Example pdf_build_succeeds :
  ∃ w, build_pdf (C := Mock.toolchain Mock.steady) 10 Mock.job "out/doc.pdf" Mock.world0
       = Returned "\documentclass{article}" w
       ∧ procs w
         = [(["pdflatex"; "-interaction"; "nonstopmode"; "tpl/doc00000.tex"], "tpl");
            (["pdflatex"; "-interaction"; "nonstopmode"; "tpl/doc00000.tex"], "tpl")]
       ∧ map_to_list (files w)
         = [("out/doc.pdf", "typeset"); ("tpl/doc.tex", "\documentclass{article}")].
Proof. eexists. split; [vm_compute; reflexivity|]. split; vm_compute; reflexivity. Qed.

(** The compiler produces a PDF where an HTML file was requested: the
    move raises, the error is logged and the text is returned. *)
Example missing_output_is_logged :
  ∃ w, run_latex (C := Mock.toolchain Mock.steady) 10 Mock.job ["pdflatex"]
                 "out/doc.html" Mock.world0
       = Returned "\documentclass{article}" w
       ∧ last (log w) = Some (mkLog ERROR "Failed during latex build"
                                    (Some FileNotFoundError))
       ∧ map_to_list (files w) = [("tpl/doc.tex", "\documentclass{article}")].
Proof. eexists. split; [vm_compute; reflexivity|]. split; vm_compute; reflexivity. Qed.

(** A compiler that never settles: the build is still running when the
    budget of seven passes is used up, and the temporary files are
    there. *)
Example restless_build_keeps_running :
  ∃ w, run_latex (C := Mock.toolchain Mock.restless) 7 Mock.job ["pdflatex"]
                 "out/doc.pdf" Mock.world0 = Running w
       ∧ length (procs w) = 7
       ∧ is_Some (files w !! "tpl/doc00000.tex").
Proof.
  eexists. split; [vm_compute; reflexivity|].
  split; [reflexivity|]. vm_compute. by eexists.
Qed.

End MockRuns.

(** * Further properties of the driver *)

(** ** The driver beyond the claims *)

Section FurtherProperties.

Context {C : Collaborators}.

(** The three ways the statements before the [try] can end. *)
Lemma prologue_cases self cmd out w :
  (∃ e, render (path_jinja2 self) (template_name self) (template_kwargs self)
               (filters self) (files w) = inl e
        ∧ prologue self cmd out w = Raised e w)
  ∨ (∃ text, render (path_jinja2 self) (template_name self) (template_kwargs self)
                    (filters self) (files w) = inr text
             ∧ cmd = [] ∧ prologue self cmd out w = Raised IndexError (name_drawn w))
  ∨ (∃ plan, prologue self cmd out w = Returned plan (name_drawn w)
             ∧ cmd ≠ []
             ∧ render (path_jinja2 self) (template_name self) (template_kwargs self)
                      (filters self) (files w) = inr (text_template plan)
             ∧ paths plan = paths_of (fresh_name (path_template self) (entropy w)) out).
Proof.
  destruct (render (path_jinja2 self) (template_name self) (template_kwargs self)
              (filters self) (files w)) as [e|text] eqn:Hr.
  - left. exists e. split; [done|]. by apply prologue_render_fails.
  - right. destruct cmd as [|c cs].
    + left. exists text. split; [done|]. split; [done|]. by eapply prologue_empty.
    + right.
      pose proof (prologue_nonempty self c cs out w text Hr) as Hp. cbv zeta in Hp.
      destruct (String.eqb c "latex2rtf" && Nat.eqb (length (c :: cs)) 1);
        eexists; (split; [exact Hp|]); by repeat split.
Qed.

Lemma run_latex_no_plan passes self cmd out w e w0 :
  prologue self cmd out w = Raised e w0 →
  run_latex passes self cmd out w = Raised e w0.
Proof. intros Hp. unfold run_latex, bind. by rewrite Hp. Qed.

(** Whatever [run_latex] returns is the text of the plan. *)
Lemma run_latex_returns_plan_text passes self cmd out w t w' :
  run_latex passes self cmd out w = Returned t w' →
  ∃ plan, prologue self cmd out w = Returned plan (name_drawn w)
          ∧ t = text_template plan
          ∧ render (path_jinja2 self) (template_name self) (template_kwargs self)
                   (filters self) (files w) = inr t
          ∧ paths plan = paths_of (fresh_name (path_template self) (entropy w)) out.
Proof.
  intros Hrun.
  destruct (prologue_cases self cmd out w)
    as [(e & _ & Hp)|[(text & _ & _ & Hp)|(plan & Hp & _ & Hr & Hps)]].
  - by rewrite (run_latex_no_plan _ _ _ _ _ _ _ Hp) in Hrun.
  - by rewrite (run_latex_no_plan _ _ _ _ _ _ _ Hp) in Hrun.
  - exists plan. split; [done|].
    rewrite (run_latex_unfold _ _ _ _ _ _ _ Hp) in Hrun. unfold bind in Hrun.
    destruct (guarded_build passes self plan out (name_drawn w)); [|done..].
    injection Hrun as <- _. done.
Qed.

(** A run that ends leaves no file of the run. *)
Lemma ended_run_is_clean passes self cmd out w plan w0 p :
  prologue self cmd out w = Returned plan w0 →
  ¬ still_running (run_latex passes self cmd out w) →
  is_run_file (path_template_dir (paths plan))
              (path_template_random_no_ext (paths plan)) p = true →
  files (world_of (run_latex passes self cmd out w)) !! p = None.
Proof.
  intros Hp Hend Hrf.
  destruct (build_body passes self plan out w0) as [[] w1|e w1|w1] eqn:Hb.
  - destruct (run_latex_returned _ _ _ _ _ _ _ _ Hp Hb) as (w2 & -> & Hc & _).
    simpl. by rewrite Hc, Hrf.
  - destruct (is_Exception e) eqn:He.
    + destruct (run_latex_caught _ _ _ _ _ _ _ _ _ Hp Hb He) as (w2 & -> & Hc & _).
      simpl. by rewrite Hc, Hrf.
    + destruct (run_latex_uncaught _ _ _ _ _ _ _ _ _ Hp Hb He) as (w2 & -> & Hc & _).
      simpl. by rewrite Hc, Hrf.
  - exfalso. apply Hend. by rewrite (run_latex_running _ _ _ _ _ _ _ _ Hp Hb).
Qed.

(** *** Files the build does not touch *)

Lemma one_pass_frame cmd dir aux tmp p w :
  leaves_alone dir tmp p → last cmd = Some tmp →
  files (world_of (one_pass cmd dir aux w)) !! p = files w !! p.
Proof.
  intros Hleave Hlast. specialize (Hleave cmd (files w) (outside w) Hlast).
  unfold one_pass, bind, check_output_cwd.
  destruct (subprocess cmd dir (files w) (outside w)) as [[[e|stdout] f] h];
    simpl in Hleave; [done|].
  unfold LOGGER_debug, emit, read_file. simpl.
  by destruct (file_text aux f).
Qed.

Lemma convergence_loop_frame passes cmd dir aux tmp p old new w :
  leaves_alone dir tmp p → last cmd = Some tmp →
  files (world_of (convergence_loop passes cmd dir aux old new w)) !! p
  = files w !! p.
Proof.
  intros Hleave Hlast. revert old new w.
  induction passes as [|passes IH]; intros old new w; simpl.
  - by case_decide.
  - case_decide; [|done]. unfold bind.
    pose proof (one_pass_frame cmd dir aux tmp p w Hleave Hlast) as H1.
    destruct (one_pass cmd dir aux w) as [r w1|e w1|w1]; simpl in H1; [|done..].
    by rewrite IH.
Qed.

Lemma stage_docx_frame docx dir tmp p w :
  leaves_alone dir tmp p →
  files (world_of (stage_docx docx tmp dir w)) !! p = files w !! p.
Proof.
  intros Hleave. destruct docx as [[|c cs]|]; simpl; [done| |done].
  specialize (Hleave ((c :: cs) ++ [tmp]) (files w) (outside w) (last_snoc _ _)).
  unfold bind, check_output_cwd.
  by destruct (subprocess _ _ _ _) as [[[e|stdout] f] h].
Qed.

Lemma before_move_frame passes plan p w0 :
  leaves_alone (path_template_dir (paths plan)) (path_template_random (paths plan)) p →
  p ≠ posixpath.canon (path_template_random (paths plan)) →
  files (world_of (before_move passes plan w0)) !! p = files w0 !! p.
Proof.
  intros Hleave Hne.
  assert (HA : files (world_of (stage_A passes plan w0)) !! p = files w0 !! p).
  { unfold stage_A, bind at 1, write_file. rewrite converge_unfold.
    erewrite convergence_loop_frame; [|done|apply last_snoc].
    simpl. by rewrite lookup_insert_ne. }
  unfold before_move, bind at 1.
  destruct (stage_A passes plan w0) as [[] w1|e w1|w1]; [|done..].
  simpl in HA. by rewrite stage_docx_frame.
Qed.

(** When the suite of the [try] does not return, the move has not
    changed any file. *)
Lemma build_body_frame_failed passes self plan out p w0 :
  leaves_alone (path_template_dir (paths plan)) (path_template_random (paths plan)) p →
  p ≠ posixpath.canon (path_template_random (paths plan)) →
  (∀ w1, build_body passes self plan out w0 ≠ Returned tt w1) →
  files (world_of (build_body passes self plan out w0)) !! p = files w0 !! p.
Proof.
  intros Hleave Hne Hfail.
  pose proof (before_move_frame passes plan p w0 Hleave Hne) as Hb.
  destruct (before_move passes plan w0) as [[] wp|e wp|wp] eqn:Hbm.
  - assert (Hbody : build_body passes self plan out w0
                    = (shutil_move (path_outfile_initial (paths plan)) out ;;
                       LOGGER_info ("Built " +:+ out +:+ " from " +:+ path_template self))
                        wp).
    { unfold build_body, bind at 1. by rewrite Hbm. }
    rewrite Hbody in Hfail |- *. unfold bind in Hfail |- *.
    destruct (shutil_move_cases (path_outfile_initial (paths plan)) out wp)
      as [(e & Hm & _)|(k & c & _ & _ & Hm)]; rewrite Hm in Hfail |- *; [done|].
    exfalso. by eapply Hfail.
  - by rewrite (build_body_compiler_fails _ _ _ _ _ _ _ Hbm).
  - unfold build_body, bind at 1. by rewrite Hbm.
Qed.

Lemma locate_Some path k : locate path = Some k → k = posixpath.canon path.
Proof. unfold locate. destruct (String.eqb path ""); [done|]. by intros [= <-]. Qed.

(** The two places a move to [out] can put a file. *)
Lemma real_dst_cases w src out :
  real_dst w src out = out
  ∨ real_dst w src out
    = posixpath.join out (posixpath.basename (posixpath.rstrip "/" src)).
Proof. unfold real_dst. destruct (os_path_isdir w out); auto. Qed.

Lemma build_body_frame passes self plan out p w0 :
  leaves_alone (path_template_dir (paths plan)) (path_template_random (paths plan)) p →
  p ≠ posixpath.canon (path_template_random (paths plan)) →
  p ≠ posixpath.canon (path_outfile_initial (paths plan)) →
  p ≠ posixpath.canon out →
  p ≠ posixpath.canon
        (posixpath.join out (posixpath.basename
                               (posixpath.rstrip "/" (path_outfile_initial (paths plan))))) →
  files (world_of (build_body passes self plan out w0)) !! p = files w0 !! p.
Proof.
  intros Hleave Hne Hni Hno Hnd.
  pose proof (before_move_frame passes plan p w0 Hleave Hne) as Hb.
  unfold build_body, bind at 1.
  destruct (before_move passes plan w0) as [[] wp|e wp|wp]; [|done..].
  unfold bind.
  destruct (shutil_move_cases (path_outfile_initial (paths plan)) out wp)
    as [(e & -> & _)|(k & c & Hk & _ & ->)]; [done|].
  apply locate_Some in Hk as ->. simpl.
  rewrite lookup_insert_ne, lookup_delete_ne; [done..|].
  by destruct (real_dst_cases wp (path_outfile_initial (paths plan)) out) as [->| ->].
Qed.

(** From the world the suite of the [try] ends in to the world
    [run_latex] ends in, only files of the run change. *)
Lemma run_latex_after_body passes self cmd out w plan w0 p :
  prologue self cmd out w = Returned plan w0 →
  is_run_file (path_template_dir (paths plan))
              (path_template_random_no_ext (paths plan)) p = false →
  files (world_of (run_latex passes self cmd out w)) !! p
  = files (world_of (build_body passes self plan out w0)) !! p.
Proof.
  intros Hp Hrf.
  destruct (build_body passes self plan out w0) as [[] w1|e w1|w1] eqn:Hb.
  - destruct (run_latex_returned _ _ _ _ _ _ _ _ Hp Hb) as (w2 & -> & Hc & _).
    simpl. by rewrite Hc, Hrf.
  - destruct (is_Exception e) eqn:He.
    + destruct (run_latex_caught _ _ _ _ _ _ _ _ _ Hp Hb He) as (w2 & -> & Hc & _).
      simpl. by rewrite Hc, Hrf.
    + destruct (run_latex_uncaught _ _ _ _ _ _ _ _ _ Hp Hb He) as (w2 & -> & Hc & _).
      simpl. by rewrite Hc, Hrf.
  - by rewrite (run_latex_running _ _ _ _ _ _ _ _ Hp Hb).
Qed.

(** *** More on the loop *)

(** A pass that raises ends the loop with its exception. *)
Lemma convergence_loop_fails k passes cmd dir aux old new w rs wk e w1 :
  old ≠ new →
  after_passes k cmd dir aux w = Some (rs, wk) →
  all_fresh new rs = true →
  one_pass cmd dir aux wk = Raised e w1 →
  (k < passes)%nat →
  convergence_loop passes cmd dir aux old new w = Raised e w1.
Proof.
  revert passes old new w rs.
  induction k as [|k IH]; intros passes old new w rs Hne Hreads Hfresh Hfail Hlt;
    (destruct passes as [|passes]; [lia|]); simpl in Hreads |- *;
    rewrite decide_True by done; unfold bind.
  - injection Hreads as <- <-. by rewrite Hfail.
  - destruct (one_pass cmd dir aux w) as [r w'| |]; [|done..].
    destruct (after_passes k cmd dir aux w') as [[rs1 w2]|] eqn:Hn; [|done].
    injection Hreads as <- <-. simpl in Hfresh.
    apply andb_true_iff in Hfresh as [Hnr Hfresh].
    apply negb_true_iff, bool_decide_eq_false in Hnr.
    apply (IH passes new r w' rs1); [done..|lia].
Qed.

(** A loop that ends normally has made the passes up to the first read
    that equals the value before it, and no more. *)
Lemma convergence_loop_sound passes cmd dir aux old new w w' :
  old ≠ new →
  convergence_loop passes cmd dir aux old new w = Returned tt w' →
  ∃ n rs, (n ≤ passes)%nat
          ∧ after_passes n cmd dir aux w = Some (rs, w')
          ∧ settle new rs = Some n.
Proof.
  revert old new w. induction passes as [|passes IH]; intros old new w Hne Hrun;
    simpl in Hrun; rewrite decide_True in Hrun by done; [done|].
  unfold bind in Hrun.
  destruct (one_pass cmd dir aux w) as [r w1| |] eqn:H1; [|done..].
  destruct (decide (new = r)) as [->|Hnr].
  - destruct passes; simpl in Hrun; rewrite decide_False in Hrun by (by intros []);
      injection Hrun as <-; exists 1, [r]; simpl; rewrite H1;
      (split; [lia|]); (split; [done|]); by rewrite decide_True.
  - destruct (IH new r w1 Hnr Hrun) as (n & rs & Hle & Hreads & Hset).
    exists (S n), (r :: rs). split; [lia|]. simpl. rewrite H1, Hreads.
    split; [done|]. rewrite decide_False by done. by rewrite Hset.
Qed.

Lemma settle_positive prev rs n : settle prev rs = Some n → (1 ≤ n)%nat.
Proof.
  destruct rs as [|r rs]; [done|]. simpl. case_decide; [intros [= <-]; lia|].
  destruct (settle r rs); simpl; [intros [= <-]; lia | done].
Qed.

(** *** What the build logs *)

Lemma one_pass_log cmd dir aux w :
  ∃ D, log (world_of (one_pass cmd dir aux w)) = log w ++ D ∧ Forall is_debug D.
Proof.
  unfold one_pass, bind, check_output_cwd.
  destruct (subprocess cmd dir (files w) (outside w)) as [[[e|stdout] f] h].
  - exists []. by rewrite app_nil_r.
  - unfold LOGGER_debug, emit, read_file. simpl.
    eexists [_]. split; [by destruct (file_text aux f)|].
    by repeat constructor.
Qed.

Lemma convergence_loop_log passes cmd dir aux old new w :
  ∃ D, log (world_of (convergence_loop passes cmd dir aux old new w)) = log w ++ D
       ∧ Forall is_debug D.
Proof.
  revert old new w. induction passes as [|passes IH]; intros old new w; simpl.
  - exists []. rewrite app_nil_r. by case_decide.
  - case_decide; [|exists []; by rewrite app_nil_r].
    unfold bind. destruct (one_pass_log cmd dir aux w) as (D1 & H1 & HD1).
    destruct (one_pass cmd dir aux w) as [r w1|e w1|w1]; simpl in H1; [|by exists D1..].
    destruct (IH new r w1) as (D2 & H2 & HD2).
    exists (D1 ++ D2). rewrite H2, H1, app_assoc. split; [done|].
    by apply Forall_app.
Qed.

Lemma stage_docx_log docx tmp dir w :
  ∃ D, log (world_of (stage_docx docx tmp dir w)) = log w ++ D ∧ Forall is_debug D.
Proof.
  destruct docx as [[|c cs]|]; simpl; try (exists []; by rewrite app_nil_r).
  unfold bind, check_output_cwd.
  destruct (subprocess _ _ _ _) as [[[e|stdout] f] h].
  - exists []. by rewrite app_nil_r.
  - eexists [_]. split; [done|]. by repeat constructor.
Qed.

Lemma before_move_log passes plan w0 :
  ∃ D, log (world_of (before_move passes plan w0)) = log w0 ++ D ∧ Forall is_debug D.
Proof.
  unfold before_move, bind at 1, stage_A, bind at 1, write_file.
  rewrite converge_unfold.
  match goal with
  | |- context [convergence_loop ?p ?c ?d ?a ?o ?n ?w] =>
      destruct (convergence_loop_log p c d a o n w) as (D1 & H1 & HD1);
      destruct (convergence_loop p c d a o n w) as [[] w1|e w1|w1]
  end; simpl in H1; [|by exists D1..].
  destruct (stage_docx_log (cmd_docx plan) (path_template_random (paths plan))
              (path_template_dir (paths plan)) w1) as (D2 & H2 & HD2).
  exists (D1 ++ D2). rewrite H2, H1, app_assoc. split; [done|]. by apply Forall_app.
Qed.

Lemma build_body_log passes self plan out w0 :
  ∃ D, Forall is_debug D
       ∧ match build_body passes self plan out w0 with
         | Returned _ w1 => log w1 = log w0 ++ D ++ [built_record self out]
         | Raised _ w1 | Running w1 => log w1 = log w0 ++ D
         end.
Proof.
  destruct (before_move_log passes plan w0) as (D & HD & HF).
  exists D. split; [done|]. unfold build_body, bind at 1.
  destruct (before_move passes plan w0) as [[] wp|e wp|wp]; simpl in HD; [|done..].
  unfold bind.
  destruct (shutil_move_cases (path_outfile_initial (paths plan)) out wp)
    as [(e & -> & _)|(k & c & _ & _ & ->)]; [done|].
  simpl. by rewrite HD, app_assoc.
Qed.

(** *** The calls of a build *)

Lemma run_latex_calls passes self cmd out w plan w0 call :
  prologue self cmd out w = Returned plan w0 →
  call ∈ procs (world_of (run_latex passes self cmd out w)) →
  call ∈ procs w
  ∨ call = (loop_cmd plan ++ [path_template_random (paths plan)],
            path_template_dir (paths plan))
  ∨ (∃ d, cmd_docx plan = Some d
          ∧ call = (d ++ [path_template_random (paths plan)],
                    path_template_dir (paths plan))).
Proof.
  intros Hp Hin.
  destruct (prologue_returned _ _ _ _ _ _ Hp) as (_ & _ & Hw0 & _).
  rewrite (run_latex_procs _ _ _ _ _ _ _ Hp), before_move_procs in Hin.
  destruct (stage_A_procs passes plan w0) as (k & _ & Hpr).
  assert (Hloop : ∀ c, c ∈ procs (world_of (stage_A passes plan w0)) →
            c ∈ procs w ∨ c = (loop_cmd plan ++ [path_template_random (paths plan)],
                               path_template_dir (paths plan))).
  { intros c Hc. rewrite Hpr, Hw0, elem_of_app in Hc.
    destruct Hc as [?|Hc]; [by left|]. right.
    by apply list_elem_of_In, repeat_spec in Hc. }
  destruct (stage_A passes plan w0) as [[] w1|e w1|w1]; simpl in Hloop.
  - apply elem_of_app in Hin as [Hin|Hin].
    + destruct (Hloop _ Hin); [by left | right; by left].
    + right; right. destruct (cmd_docx plan) as [[|c cs]|]; simpl in Hin;
        [by apply elem_of_nil in Hin| |by apply elem_of_nil in Hin].
      apply list_elem_of_singleton in Hin. eauto.
  - destruct (Hloop _ Hin); [by left | right; by left].
  - destruct (Hloop _ Hin); [by left | right; by left].
Qed.

(** *** X1: a template that does not render *)

(** X1.  When [get_text_template] raises, [run_latex] raises the same
    exception, whatever the command, and leaves the world as it found
    it: nothing is logged, written or launched, and the handler of the
    build is not involved.  A wrapper whose extension check passes does
    the same. *)
Theorem X1_template_error_reaches_caller passes self cmd out w e w1 :
  get_text_template self w = Raised e w1 →
  run_latex passes self cmd out w = Raised e w
  ∧ ((posixpath.splitext out).2 = ".pdf" → build_pdf passes self out w = Raised e w)
  ∧ ((posixpath.splitext out).2 = ".html" → build_html passes self out w = Raised e w)
  ∧ ((posixpath.splitext out).2 = ".docx" → build_docx passes self out w = Raised e w).
Proof.
  intros Ht.
  assert (Hrun : ∀ c, run_latex passes self c out w = Raised e w).
  { intros c. unfold run_latex, bind at 1, prologue, bind at 1. rewrite Ht.
    unfold get_text_template, render_latex_template in Ht.
    destruct (render _ _ _ _ _); [|done]. by injection Ht as _ <-. }
  split; [apply Hrun|].
  repeat split; intros Hext;
    unfold build_pdf, build_html, build_docx, bind at 1, has_file_extension;
    rewrite decide_True by done; apply Hrun.
Qed.

(** *** X2: the text that is returned *)

(** X2.  Whatever [run_latex] or a wrapper returns is the text that
    [get_text_template] gives in the world of the call, before the build
    has written or deleted anything. *)
Theorem X2_returned_text_is_the_rendering passes self cmd out w t w' :
  (run_latex passes self cmd out w = Returned t w'
   ∨ build_pdf passes self out w = Returned t w'
   ∨ build_html passes self out w = Returned t w'
   ∨ build_docx passes self out w = Returned t w') →
  get_text_template self w = Returned t w.
Proof.
  assert (Hrun : ∀ c, run_latex passes self c out w = Returned t w' →
                      get_text_template self w = Returned t w).
  { intros c Hc. destruct (run_latex_returns_plan_text _ _ _ _ _ _ _ Hc)
      as (plan & _ & _ & Hr & _).
    unfold get_text_template, render_latex_template. by rewrite Hr. }
  intros [H|[H|[H|H]]]; [by eapply Hrun|..];
    unfold build_pdf, build_html, build_docx, bind at 1, has_file_extension in H;
    (case_decide; cbn [ret raise] in H; [|done]); by eapply Hrun.
Qed.

(** *** X3: an exception that is not an [Exception] *)

(** X3.  When the suite of the [try] raises an exception outside the
    [Exception] hierarchy, [run_latex] raises it to the caller after the
    cleanup: the files that the cleanup lists are deleted and the others
    kept, no process is launched, and no record is added to what the
    suite had logged, all of it at debug level. *)
Theorem X3_interrupt_propagates_after_cleanup passes self cmd out w plan w0 e w1 :
  prologue self cmd out w = Returned plan w0 →
  build_body passes self plan out w0 = Raised e w1 →
  is_Exception e = false →
  ∃ w2 D, run_latex passes self cmd out w = Raised e w2
          ∧ procs w2 = procs w1
          ∧ log w2 = log w ++ D ∧ Forall is_debug D
          ∧ cleaned (path_template_dir (paths plan))
                    (path_template_random_no_ext (paths plan)) w1 w2.
Proof.
  intros Hp Hb He.
  destruct (run_latex_uncaught _ _ _ _ _ _ _ _ _ Hp Hb He)
    as (w2 & Hr & Hc & Hpr & Hl & _).
  destruct (build_body_log passes self plan out w0) as (D & HD & Hlog).
  rewrite Hb in Hlog.
  destruct (prologue_returned _ _ _ _ _ _ Hp) as (_ & _ & -> & Hps).
  exists w2, D. repeat split; try done.
  by rewrite Hl, Hlog.
Qed.

(** *** X5: files that do not belong to the run *)

(** X5.  Take a location that the cleanup does not list, that is not
    the location of the temporary source, of the initial output or of
    the requested output, nor the entry that a move into the requested
    output as a directory would make, and that the compiler leaves
    alone.  What is there is after [run_latex], on every exit and also
    while the loop is still running, what it was before: the build
    writes, moves and deletes nothing else. *)
Theorem X5_other_files_survive passes self cmd out w p :
  let tmp := fresh_name (path_template self) (entropy w) in
  let ps := paths_of tmp out in
  is_run_file (path_template_dir ps) (path_template_random_no_ext ps) p = false →
  p ≠ posixpath.canon tmp →
  p ≠ posixpath.canon (path_outfile_initial ps) →
  p ≠ posixpath.canon out →
  p ≠ posixpath.canon
        (posixpath.join out (posixpath.basename
                               (posixpath.rstrip "/" (path_outfile_initial ps)))) →
  leaves_alone (path_template_dir ps) tmp p →
  files (world_of (run_latex passes self cmd out w)) !! p = files w !! p.
Proof.
  intros tmp ps Hrf Htmp Hinit Hout Hinto Hleave.
  destruct (prologue_cases self cmd out w)
    as [(e & _ & Hp)|[(text & _ & _ & Hp)|(plan & Hp & _ & _ & Hps)]].
  - by rewrite (run_latex_no_plan _ _ _ _ _ _ _ Hp).
  - by rewrite (run_latex_no_plan _ _ _ _ _ _ _ Hp).
  - fold tmp in Hps. fold ps in Hps.
    rewrite (run_latex_after_body _ _ _ _ _ _ _ p Hp) by (by rewrite Hps).
    rewrite build_body_frame; rewrite ?Hps; done.
Qed.

(** *** X6: the output path after a failed build *)

(** X6.  When the suite of the [try] raises, the move has not happened:
    if the requested output path names neither the temporary source nor
    a file that the cleanup lists, and the compiler leaves it alone, the
    file there, or its absence, is after [run_latex] what it was
    before. *)
Theorem X6_failed_build_keeps_old_output passes self cmd out w plan w0 e w1 :
  prologue self cmd out w = Returned plan w0 →
  build_body passes self plan out w0 = Raised e w1 →
  posixpath.canon out ≠ posixpath.canon (path_template_random (paths plan)) →
  is_run_file (path_template_dir (paths plan))
              (path_template_random_no_ext (paths plan))
              (posixpath.canon out) = false →
  leaves_alone (path_template_dir (paths plan)) (path_template_random (paths plan))
               (posixpath.canon out) →
  files (world_of (run_latex passes self cmd out w)) !! posixpath.canon out
  = files w !! posixpath.canon out.
Proof.
  intros Hp Hb Hne Hrf Hleave.
  destruct (prologue_returned _ _ _ _ _ _ Hp) as (_ & _ & Hw0 & Hps).
  rewrite (run_latex_after_body _ _ _ _ _ _ _ _ Hp Hrf).
  rewrite build_body_frame_failed; [by rewrite Hw0|done|done|by rewrite Hb].
Qed.

(** *** X7: a pass that raises *)

(** X7.  Let [k] passes succeed without two equal values in a row and
    let the next pass raise, because the compiler fails or because the
    auxiliary file cannot be read.  Then the suite of the [try] raises
    that exception in the world of that pass: [k + 1] compiler runs have
    been launched and nothing after them, neither a further pass nor the
    second stage, and the move has not been tried. *)
Theorem X7_failing_pass_ends_the_build k passes self plan out w0 rs wk e w1 :
  let ps := paths plan in
  let cmd := loop_cmd plan ++ [path_template_random ps] in
  let ws := source_written plan w0 in
  after_passes k cmd (path_template_dir ps) (path_template_random_aux ps)
               (loop_start ws) = Some (rs, wk) →
  all_fresh (second_sentinel ws) rs = true →
  one_pass cmd (path_template_dir ps) (path_template_random_aux ps) wk = Raised e w1 →
  (k < passes)%nat →
  build_body passes self plan out w0 = Raised e w1
  ∧ procs w1 = procs w0 ++ repeat (cmd, path_template_dir ps) (S k).
Proof.
  intros ps cmd ws Hreads Hfresh Hfail Hlt. split.
  - apply build_body_compiler_fails.
    unfold before_move, bind at 1, stage_A, bind at 1, write_file.
    fold ps cmd. change (set_files _ w0) with ws. rewrite converge_unfold.
    by rewrite (convergence_loop_fails k passes cmd _ _ _ _ _ rs wk e w1
                  (sentinels_differ _ _) Hreads Hfresh Hfail Hlt).
  - destruct (after_passes_procs _ _ _ _ _ _ _ Hreads) as [_ Hk].
    pose proof (one_pass_procs cmd (path_template_dir ps)
                  (path_template_random_aux ps) wk) as H1.
    rewrite Hfail in H1. simpl in H1. rewrite H1, Hk. simpl.
    by rewrite <- app_assoc, repeat_snoc.
Qed.

(** *** X8: why the loop ends *)

(** X8.  A loop that ends normally has made at least one pass; every one
    of its passes has succeeded; the read of its last pass equals the
    value before it, which is the read of the pass before or, for a
    single pass, the second sentinel; and no earlier read did. *)
Theorem X8_convergence_is_sound passes cmd dir aux w w' :
  converge passes cmd dir aux w = Returned tt w' →
  ∃ n rs, (1 ≤ n ≤ passes)%nat
          ∧ after_passes n cmd dir aux (loop_start w) = Some (rs, w')
          ∧ settle (second_sentinel w) rs = Some n
          ∧ procs w' = procs w ++ repeat (cmd, dir) n.
Proof.
  rewrite converge_unfold. intros Hrun.
  destruct (convergence_loop_sound _ _ _ _ _ _ _ _ (sentinels_differ _ _) Hrun)
    as (n & rs & Hle & Hreads & Hset).
  exists n, rs. pose proof (settle_positive _ _ _ Hset).
  destruct (after_passes_procs _ _ _ _ _ _ _ Hreads) as [_ Hpr].
  repeat split; try done; lia.
Qed.

(** *** X9: never one pass *)

(** X9.  Unless the first read of the auxiliary file is the second
    sentinel, a loop that ends normally has launched the compiler at
    least twice: the run that brings the file to its final content is
    always followed by one more. *)
Theorem X9_convergence_takes_two_passes passes cmd dir aux w w' r w1 :
  converge passes cmd dir aux w = Returned tt w' →
  one_pass cmd dir aux (loop_start w) = Returned r w1 →
  r ≠ second_sentinel w →
  ∃ k, procs w' = procs w ++ repeat (cmd, dir) (S (S k)).
Proof.
  rewrite converge_unfold. intros Hrun H1 Hr.
  destruct (convergence_loop_sound _ _ _ _ _ _ _ _ (sentinels_differ _ _) Hrun)
    as (n & rs & _ & Hreads & Hset).
  destruct (after_passes_procs _ _ _ _ _ _ _ Hreads) as [_ Hpr].
  destruct n as [|n]; [apply settle_positive in Hset; lia|].
  simpl in Hreads. rewrite H1 in Hreads.
  destruct (after_passes n cmd dir aux w1) as [[rs1 w2]|]; [|done].
  injection Hreads as <- <-. simpl in Hset.
  rewrite decide_False in Hset by (intros Heq; by apply Hr).
  destruct (settle r rs1) as [m|] eqn:Hm; [|done]. simpl in Hset.
  injection Hset as <-. apply settle_positive in Hm.
  destruct m as [|m]; [lia|]. by exists m.
Qed.

(** *** X10: what every process is given *)

(** X10.  Every process that [run_latex] launches, in the loop or as
    second stage, runs in the directory of the temporary source and has
    the temporary source as its last argument. *)
Theorem X10_every_call_compiles_the_temporary_source passes self cmd out w call :
  let tmp := fresh_name (path_template self) (entropy w) in
  call ∈ procs (world_of (run_latex passes self cmd out w)) →
  call ∈ procs w ∨ (call.2 = posixpath.dirname tmp ∧ last call.1 = Some tmp).
Proof.
  intros tmp Hin.
  destruct (prologue_cases self cmd out w)
    as [(e & _ & Hp)|[(text & _ & _ & Hp)|(plan & Hp & _ & _ & Hps)]].
  - left. by rewrite (run_latex_no_plan _ _ _ _ _ _ _ Hp) in Hin.
  - left. by rewrite (run_latex_no_plan _ _ _ _ _ _ _ Hp) in Hin.
  - destruct (run_latex_calls _ _ _ _ _ _ _ _ Hp Hin) as [?|[->|(d & _ & ->)]];
      [by left|right..]; rewrite Hps; simpl; by rewrite last_snoc.
Qed.

(** *** X11: the command lines of the wrappers *)

(** X11.  [build_pdf] launches nothing but the primary compiler with
    [-interaction nonstopmode] on the temporary source, [build_html]
    nothing but [htlatex] on it.  [build_docx] launches the primary
    compiler on it without these flags and [latex2rtf -o] with the stem
    of the temporary source followed by [.docx]; all run in the
    directory of the temporary source. *)
Theorem X11_wrapper_command_lines passes self out w call :
  let tmp := fresh_name (path_template self) (entropy w) in
  let dir := posixpath.dirname tmp in
  let stem := (posixpath.splitext tmp).1 in
  (call ∈ procs (world_of (build_pdf passes self out w)) →
     call ∈ procs w
     ∨ call = ([cmd_latex self; "-interaction"; "nonstopmode"; tmp], dir))
  ∧ (call ∈ procs (world_of (build_html passes self out w)) →
     call ∈ procs w ∨ call = (["htlatex"; tmp], dir))
  ∧ (call ∈ procs (world_of (build_docx passes self out w)) →
     call ∈ procs w
     ∨ call = ([cmd_latex self; tmp], dir)
     ∨ call = (["latex2rtf"; "-o"; stem +:+ ".docx"; tmp], dir)).
Proof.
  intros tmp dir stem.
  assert (Hrun : ∀ c, call ∈ procs (world_of (run_latex passes self c out w)) →
            call ∈ procs w
            ∨ ∃ plan, prologue self c out w = Returned plan (name_drawn w)
                ∧ paths plan = paths_of tmp out
                ∧ (call = (loop_cmd plan ++ [tmp], dir)
                   ∨ ∃ d, cmd_docx plan = Some d ∧ call = (d ++ [tmp], dir))).
  { intros c Hin.
    destruct (prologue_cases self c out w)
      as [(e & _ & Hp)|[(text & _ & _ & Hp)|(plan & Hp & _ & _ & Hps)]].
    - left. by rewrite (run_latex_no_plan _ _ _ _ _ _ _ Hp) in Hin.
    - left. by rewrite (run_latex_no_plan _ _ _ _ _ _ _ Hp) in Hin.
    - destruct (run_latex_calls _ _ _ _ _ _ _ _ Hp Hin) as [?|Hcall]; [by left|].
      right. exists plan. rewrite Hps in Hcall. by repeat split. }
  repeat split; unfold build_pdf, build_html, build_docx, bind at 1,
    has_file_extension; (case_decide as Hext; [|by left]); cbn [ret]; intros Hin;
    (destruct (Hrun _ Hin) as [?|(plan & Hp & Hps & Hcall)]; [by left|]); right.
  - destruct (prologue_plan _ _ _ _ _ _ Hp) as [_ Hother].
    destruct Hother as [Hloop Hdocx]; [done|].
    rewrite Hloop, Hdocx in Hcall. by destruct Hcall as [->|(d & ? & _)].
  - destruct (prologue_plan _ _ _ _ _ _ Hp) as [_ Hother].
    destruct Hother as [Hloop Hdocx]; [done|].
    rewrite Hloop, Hdocx in Hcall. by destruct Hcall as [->|(d & ? & _)].
  - destruct (prologue_plan _ _ _ _ _ _ Hp) as [Hdocx _].
    destruct Hdocx as [Hloop Hdocx]; [done|].
    rewrite Hloop, Hdocx, Hps in Hcall. cbn in Hcall. fold tmp stem in Hcall.
    rewrite Hext in Hcall.
    destruct Hcall as [->|(d & [= <-] & ->)]; [by left | by right].
Qed.

(** *** X12: the log of a build *)

(** X12.  When [run_latex] returns, it has added to the log records at
    debug level and then exactly one more, the last: the record
    [Built ... from ...] at info level if the suite of the [try] has
    succeeded, the record [Failed during latex build] with the exception
    attached if it has raised.  The records that were there are kept. *)
Theorem X12_last_record_tells_the_outcome passes self cmd out w t w' :
  run_latex passes self cmd out w = Returned t w' →
  ∃ plan D final,
    prologue self cmd out w = Returned plan (name_drawn w)
    ∧ log w' = log w ++ D ++ [final]
    ∧ Forall is_debug D
    ∧ ((final = built_record self out
        ∧ ∃ w1, build_body passes self plan out (name_drawn w) = Returned tt w1)
       ∨ (∃ e w1, final = failed_record e ∧ is_Exception e = true
                  ∧ build_body passes self plan out (name_drawn w) = Raised e w1)).
Proof.
  intros Hrun.
  destruct (run_latex_returns_plan_text _ _ _ _ _ _ _ Hrun) as (plan & Hp & _).
  destruct (build_body_log passes self plan out (name_drawn w)) as (D & HD & Hlog).
  exists plan, D.
  destruct (build_body passes self plan out (name_drawn w)) as [[] w1|e w1|w1] eqn:Hb.
  - destruct (run_latex_returned _ _ _ _ _ _ _ _ Hp Hb) as (w2 & Hr & _ & _ & Hl & _).
    rewrite Hrun in Hr. injection Hr as _ <-.
    exists (built_record self out). rewrite Hl, Hlog. repeat split; try done.
    left. eauto.
  - destruct (is_Exception e) eqn:He.
    + destruct (run_latex_caught _ _ _ _ _ _ _ _ _ Hp Hb He) as (w2 & Hr & _ & _ & Hl).
      rewrite Hrun in Hr. injection Hr as _ <-.
      exists (failed_record e). rewrite Hl, Hlog, <- app_assoc.
      repeat split; try done. right. eauto.
    + destruct (run_latex_uncaught _ _ _ _ _ _ _ _ _ Hp Hb He) as (w2 & Hr & _).
      by rewrite Hrun in Hr.
  - by rewrite (run_latex_running _ _ _ _ _ _ _ _ Hp Hb) in Hrun.
Qed.

End FurtherProperties.

(** ** The further properties on test doubles *)

Lemma X1_witness :
  get_text_template (C := Mock.toolchain Mock.steady) Scenario.job_missing Mock.world0
  = Raised TemplateError Mock.world0
  ∧ (posixpath.splitext "out/doc.pdf").2 = ".pdf"
  ∧ run_latex (C := Mock.toolchain Mock.steady) 10 Scenario.job_missing ["pdflatex"]
              "out/doc.pdf" Mock.world0
    = Raised TemplateError Mock.world0
  ∧ build_pdf (C := Mock.toolchain Mock.steady) 10 Scenario.job_missing
              "out/doc.pdf" Mock.world0
    = Raised TemplateError Mock.world0.
Proof.
  split; [reflexivity|]. split; [reflexivity|].
  pose proof (X1_template_error_reaches_caller (C := Mock.toolchain Mock.steady)
                10 Scenario.job_missing ["pdflatex"] "out/doc.pdf" Mock.world0
                TemplateError Mock.world0 eq_refl) as (Hrun & Hpdf & _).
  split; [exact Hrun | exact (Hpdf eq_refl)].
Defined.

Lemma X2_witness :
  ∃ w', run_latex (C := Mock.toolchain Mock.steady) 10 Mock.job ["pdflatex"]
                  "out/doc.pdf" Mock.world0
        = Returned "\documentclass{article}" w'
        ∧ get_text_template (C := Mock.toolchain Mock.steady) Mock.job Mock.world0
          = Returned "\documentclass{article}" Mock.world0.
Proof.
  eexists. split; [vm_compute; reflexivity|].
  eapply (X2_returned_text_is_the_rendering (C := Mock.toolchain Mock.steady)
            10 Mock.job ["pdflatex"] "out/doc.pdf" Mock.world0).
  left. vm_compute; reflexivity.
Defined.

Lemma X3_witness :
  ∃ plan w0 w1,
    prologue (C := Scenario.toolchain Scenario.interrupted) Mock.job ["pdflatex"]
             "out/doc.pdf" Mock.world0 = Returned plan w0
    ∧ build_body (C := Scenario.toolchain Scenario.interrupted) 10 Mock.job plan
                 "out/doc.pdf" w0 = Raised KeyboardInterrupt w1
    ∧ is_Exception KeyboardInterrupt = false
    ∧ ∃ w2 D, run_latex (C := Scenario.toolchain Scenario.interrupted) 10 Mock.job
                        ["pdflatex"] "out/doc.pdf" Mock.world0
              = Raised KeyboardInterrupt w2
              ∧ procs w2 = procs w1
              ∧ log w2 = log Mock.world0 ++ D ∧ Forall is_debug D
              ∧ cleaned (path_template_dir (paths plan))
                        (path_template_random_no_ext (paths plan)) w1 w2.
Proof.
  eexists _, _, _.
  split; [vm_compute; reflexivity|].
  split; [vm_compute; reflexivity|].
  split; [reflexivity|].
  eapply (X3_interrupt_propagates_after_cleanup
            (C := Scenario.toolchain Scenario.interrupted)).
  - vm_compute; reflexivity.
  - vm_compute; reflexivity.
  - reflexivity.
Defined.

(** The tidy compiler writes next to its input only. *)
Lemma tidy_leaves_alone (p : string) :
  p ≠ "tpl/doc00000.aux" → p ≠ "tpl/doc00000.pdf" →
  leaves_alone (C := Scenario.toolchain Scenario.tidy) "tpl" "tpl/doc00000.tex" p.
Proof.
  intros Haux Hpdf cmd fs h Hlast.
  cbn [subprocess Scenario.toolchain]. unfold Scenario.tidy. rewrite Hlast.
  cbn [fst snd default].
  change (posixpath.canon ((posixpath.splitext "tpl/doc00000.tex").1 +:+ ".aux"))
    with "tpl/doc00000.aux".
  change (posixpath.canon ((posixpath.splitext "tpl/doc00000.tex").1 +:+ ".pdf"))
    with "tpl/doc00000.pdf".
  by rewrite !lookup_insert_ne.
Defined.

Lemma X5_witness :
  is_run_file "tpl" "tpl/doc00000" "tpl/doc9F3A1.aux" = false
  ∧ "tpl/doc9F3A1.aux" ≠ posixpath.canon "tpl/doc00000.tex"
  ∧ "tpl/doc9F3A1.aux" ≠ posixpath.canon "tpl/doc00000.pdf"
  ∧ "tpl/doc9F3A1.aux" ≠ posixpath.canon "out/doc.pdf"
  ∧ "tpl/doc9F3A1.aux" ≠ posixpath.canon "out/doc.pdf/doc00000.pdf"
  ∧ leaves_alone (C := Scenario.toolchain Scenario.tidy) "tpl" "tpl/doc00000.tex"
                 "tpl/doc9F3A1.aux"
  ∧ files (world_of (run_latex (C := Scenario.toolchain Scenario.tidy) 10 Mock.job
                               ["pdflatex"] "out/doc.pdf" Scenario.busy_world))
      !! "tpl/doc9F3A1.aux"
    = files Scenario.busy_world !! "tpl/doc9F3A1.aux".
Proof.
  split; [vm_compute; reflexivity|].
  split; [vm_compute; discriminate|]. split; [vm_compute; discriminate|].
  split; [vm_compute; discriminate|]. split; [vm_compute; discriminate|].
  split; [by apply tidy_leaves_alone|].
  apply (X5_other_files_survive (C := Scenario.toolchain Scenario.tidy) 10 Mock.job
           ["pdflatex"] "out/doc.pdf" Scenario.busy_world "tpl/doc9F3A1.aux").
  - vm_compute; reflexivity.
  - vm_compute; discriminate.
  - vm_compute; discriminate.
  - vm_compute; discriminate.
  - vm_compute; discriminate.
  - by apply tidy_leaves_alone.
Defined.

Lemma broken_leaves_alone (dir tmp p : string) :
  leaves_alone (C := Scenario.toolchain Scenario.broken) dir tmp p.
Proof. intros cmd fs h _. reflexivity. Defined.

(** Without the first premise: a build on the tree [/srv/tpl//] that is
    asked to put its output where its temporary source is, and fails,
    leaves the temporary source there. *)
Example failed_build_can_fill_the_output_path :
  ∃ plan w0 w1 w2,
    prologue (C := Scenario.toolchain Scenario.broken) Scenario.job_slashes ["pdflatex"]
             "/srv/tpl/doc00000.tex" Scenario.slashes_world = Returned plan w0
    ∧ build_body (C := Scenario.toolchain Scenario.broken) 10 Scenario.job_slashes plan
                 "/srv/tpl/doc00000.tex" w0 = Raised (CalledProcessError 1) w1
    ∧ is_run_file (path_template_dir (paths plan))
                  (path_template_random_no_ext (paths plan))
                  (posixpath.canon "/srv/tpl/doc00000.tex") = false
    ∧ run_latex (C := Scenario.toolchain Scenario.broken) 10 Scenario.job_slashes
                ["pdflatex"] "/srv/tpl/doc00000.tex" Scenario.slashes_world
      = Returned "\documentclass{article}" w2
    ∧ files Scenario.slashes_world !! "/srv/tpl/doc00000.tex" = None
    ∧ files w2 !! "/srv/tpl/doc00000.tex" = Some "\documentclass{article}".
Proof.
  eexists _, _, _, _.
  split; [vm_compute; reflexivity|].
  split; [vm_compute; reflexivity|].
  split; [vm_compute; reflexivity|].
  split; [vm_compute; reflexivity|].
  split; vm_compute; reflexivity.
Qed.

Lemma X6_witness :
  ∃ plan w0 w1,
    prologue (C := Scenario.toolchain Scenario.broken) Mock.job ["pdflatex"]
             "out/doc.pdf" Scenario.busy_world = Returned plan w0
    ∧ build_body (C := Scenario.toolchain Scenario.broken) 10 Mock.job plan
                 "out/doc.pdf" w0 = Raised (CalledProcessError 1) w1
    ∧ posixpath.canon "out/doc.pdf" ≠ posixpath.canon (path_template_random (paths plan))
    ∧ is_run_file (path_template_dir (paths plan))
                  (path_template_random_no_ext (paths plan))
                  (posixpath.canon "out/doc.pdf") = false
    ∧ leaves_alone (C := Scenario.toolchain Scenario.broken)
                   (path_template_dir (paths plan)) (path_template_random (paths plan))
                   (posixpath.canon "out/doc.pdf")
    ∧ files (world_of (run_latex (C := Scenario.toolchain Scenario.broken) 10 Mock.job
                                 ["pdflatex"] "out/doc.pdf" Scenario.busy_world))
        !! posixpath.canon "out/doc.pdf"
      = files Scenario.busy_world !! posixpath.canon "out/doc.pdf"
    ∧ files Scenario.busy_world !! posixpath.canon "out/doc.pdf" = Some "earlier".
Proof.
  eexists _, _, _.
  split; [vm_compute; reflexivity|].
  split; [vm_compute; reflexivity|].
  split; [vm_compute; discriminate|].
  split; [vm_compute; reflexivity|].
  split; [apply broken_leaves_alone|].
  split; [|vm_compute; reflexivity].
  eapply (X6_failed_build_keeps_old_output (C := Scenario.toolchain Scenario.broken)).
  - vm_compute; reflexivity.
  - vm_compute; reflexivity.
  - vm_compute; discriminate.
  - vm_compute; reflexivity.
  - apply broken_leaves_alone.
Defined.

(** A compiler that writes no auxiliary file: the first read raises and
    the build has launched one compiler run. *)
Lemma X7_witness :
  ∃ plan w0 w1,
    prologue (C := Scenario.toolchain Scenario.no_aux) Mock.job ["pdflatex"]
             "out/doc.pdf" Mock.world0 = Returned plan w0
    ∧ after_passes (C := Scenario.toolchain Scenario.no_aux) 0
                   (loop_cmd plan ++ [path_template_random (paths plan)])
                   (path_template_dir (paths plan))
                   (path_template_random_aux (paths plan))
                   (loop_start (source_written plan w0))
      = Some ([], loop_start (source_written plan w0))
    ∧ all_fresh (second_sentinel (C := Scenario.toolchain Scenario.no_aux)
                                 (source_written plan w0)) [] = true
    ∧ one_pass (C := Scenario.toolchain Scenario.no_aux)
               (loop_cmd plan ++ [path_template_random (paths plan)])
               (path_template_dir (paths plan))
               (path_template_random_aux (paths plan))
               (loop_start (source_written plan w0))
      = Raised FileNotFoundError w1
    ∧ (0 < 10)%nat
    ∧ build_body (C := Scenario.toolchain Scenario.no_aux) 10 Mock.job plan
                 "out/doc.pdf" w0 = Raised FileNotFoundError w1
    ∧ procs w1 = procs w0 ++ repeat (loop_cmd plan ++ [path_template_random (paths plan)],
                                     path_template_dir (paths plan)) 1.
Proof.
  eexists _, _, _.
  split; [vm_compute; reflexivity|].
  split; [reflexivity|]. split; [reflexivity|].
  split; [vm_compute; reflexivity|].
  split; [lia|].
  eapply (X7_failing_pass_ends_the_build (C := Scenario.toolchain Scenario.no_aux) 0 10).
  - reflexivity.
  - reflexivity.
  - vm_compute; reflexivity.
  - lia.
Defined.

Lemma X8_witness :
  ∃ w', converge (C := Mock.toolchain Mock.settling) 10 Mock.cmd Mock.dir Mock.aux
                 Mock.world0 = Returned tt w'
        ∧ ∃ n rs, (1 ≤ n ≤ 10)%nat
                  ∧ after_passes (C := Mock.toolchain Mock.settling) n
                                 Mock.cmd Mock.dir Mock.aux (loop_start Mock.world0)
                    = Some (rs, w')
                  ∧ settle (second_sentinel (C := Mock.toolchain Mock.settling)
                                            Mock.world0) rs = Some n
                  ∧ procs w' = procs Mock.world0 ++ repeat (Mock.cmd, Mock.dir) n.
Proof.
  eexists. split; [vm_compute; reflexivity|].
  apply (X8_convergence_is_sound (C := Mock.toolchain Mock.settling)).
  vm_compute; reflexivity.
Defined.

Lemma X9_witness :
  ∃ w' w1,
    converge (C := Mock.toolchain Mock.steady) 10 Mock.cmd Mock.dir Mock.aux
             Mock.world0 = Returned tt w'
    ∧ one_pass (C := Mock.toolchain Mock.steady) Mock.cmd Mock.dir Mock.aux
               (loop_start Mock.world0) = Returned (Text "\relax") w1
    ∧ Text "\relax" ≠ second_sentinel (C := Mock.toolchain Mock.steady) Mock.world0
    ∧ ∃ k, procs w' = procs Mock.world0 ++ repeat (Mock.cmd, Mock.dir) (S (S k)).
Proof.
  eexists _, _.
  split; [vm_compute; reflexivity|].
  split; [vm_compute; reflexivity|].
  split; [discriminate|].
  eapply (X9_convergence_takes_two_passes (C := Mock.toolchain Mock.steady) 10
            Mock.cmd Mock.dir Mock.aux Mock.world0 _ (Text "\relax") _).
  - vm_compute; reflexivity.
  - vm_compute; reflexivity.
  - discriminate.
Defined.

Lemma docx_call_is_made :
  (["latex2rtf"; "-o"; "tpl/doc00000.docx"; "tpl/doc00000.tex"], "tpl")
  ∈ procs (world_of (build_docx (C := Mock.toolchain Mock.steady) 10 Mock.job
                                "out/doc.docx" Mock.world0)).
Proof. apply list_elem_of_In. vm_compute. right; right; left. reflexivity. Defined.

Lemma docx_call_of_run_latex :
  (["latex2rtf"; "-o"; "tpl/doc00000.docx"; "tpl/doc00000.tex"], "tpl")
  ∈ procs (world_of (run_latex (C := Mock.toolchain Mock.steady) 10 Mock.job
                               ["latex2rtf"] "out/doc.docx" Mock.world0)).
Proof. apply list_elem_of_In. vm_compute. right; right; left. reflexivity. Defined.

Lemma X10_witness :
  (["latex2rtf"; "-o"; "tpl/doc00000.docx"; "tpl/doc00000.tex"], "tpl")
  ∈ procs (world_of (run_latex (C := Mock.toolchain Mock.steady) 10 Mock.job
                               ["latex2rtf"] "out/doc.docx" Mock.world0))
  ∧ ((["latex2rtf"; "-o"; "tpl/doc00000.docx"; "tpl/doc00000.tex"], "tpl")
     ∈ procs Mock.world0
     ∨ ("tpl" = posixpath.dirname "tpl/doc00000.tex"
        ∧ last ["latex2rtf"; "-o"; "tpl/doc00000.docx"; "tpl/doc00000.tex"]
          = Some "tpl/doc00000.tex")).
Proof.
  split; [exact docx_call_of_run_latex|].
  exact (X10_every_call_compiles_the_temporary_source
           (C := Mock.toolchain Mock.steady) 10 Mock.job ["latex2rtf"] "out/doc.docx"
           Mock.world0 _ docx_call_of_run_latex).
Defined.

Lemma X11_witness :
  (["latex2rtf"; "-o"; "tpl/doc00000.docx"; "tpl/doc00000.tex"], "tpl")
  ∈ procs (world_of (build_docx (C := Mock.toolchain Mock.steady) 10 Mock.job
                                "out/doc.docx" Mock.world0))
  ∧ ((["latex2rtf"; "-o"; "tpl/doc00000.docx"; "tpl/doc00000.tex"], "tpl")
     ∈ procs Mock.world0
     ∨ (["latex2rtf"; "-o"; "tpl/doc00000.docx"; "tpl/doc00000.tex"], "tpl")
       = (["pdflatex"; "tpl/doc00000.tex"], "tpl")
     ∨ (["latex2rtf"; "-o"; "tpl/doc00000.docx"; "tpl/doc00000.tex"], "tpl")
       = (["latex2rtf"; "-o"; "tpl/doc00000" +:+ ".docx"; "tpl/doc00000.tex"], "tpl")).
Proof.
  split; [exact docx_call_is_made|].
  exact (proj2 (proj2 (X11_wrapper_command_lines
           (C := Mock.toolchain Mock.steady) 10 Mock.job "out/doc.docx" Mock.world0 _))
           docx_call_is_made).
Defined.

Lemma X12_witness :
  ∃ w', run_latex (C := Mock.toolchain Mock.failing) 10 Mock.job ["pdflatex"]
                  "out/doc.pdf" Mock.world0
        = Returned "\documentclass{article}" w'
        ∧ ∃ plan D final,
            prologue (C := Mock.toolchain Mock.failing) Mock.job ["pdflatex"]
                     "out/doc.pdf" Mock.world0
            = Returned plan (name_drawn Mock.world0)
            ∧ log w' = log Mock.world0 ++ D ++ [final]
            ∧ Forall is_debug D
            ∧ ((final = built_record Mock.job "out/doc.pdf"
                ∧ ∃ w1, build_body (C := Mock.toolchain Mock.failing) 10 Mock.job plan
                                   "out/doc.pdf" (name_drawn Mock.world0)
                        = Returned tt w1)
               ∨ (∃ e w1, final = failed_record e ∧ is_Exception e = true
                          ∧ build_body (C := Mock.toolchain Mock.failing) 10 Mock.job
                                       plan "out/doc.pdf" (name_drawn Mock.world0)
                            = Raised e w1)).
Proof.
  eexists. split; [vm_compute; reflexivity|].
  eapply (X12_last_record_tells_the_outcome (C := Mock.toolchain Mock.failing)).
  vm_compute; reflexivity.
Defined.
